(** * Claims decision pipeline: compliance engine, routing engine, orchestrator

    A shallow embedding of [compliance_checker.py], [workflow_router.py],
    [claim_classifier.py], [pipeline.py] and [document_processor.py], and
    the properties of the decision pipeline.

    - Python values are the values [json.load] produces ([pyval]): None,
      booleans, integers ([Z]), floats (IEEE binary64, [PrimFloat.float]),
      strings, lists and string-keyed dictionaries.  A dictionary is the
      list of its entries in insertion order (a [for] loop over it visits
      the keys in that order); a lookup takes the first entry of a key.
    - Strings are sequences of code points below 256 ([string]); on these
      [str.lower] and the classes [[A-Z]] and [\d] are as defined below.
    - A Python exception is a value of [exn]; code that can raise returns
      a [result], and [try_except] is [try: ... except Exception as e: ...].
    - The text of [str(e)] is left to the parameter [exn_str] and the
      text of a float to the parameter [float_repr].  [str(v)] can raise:
      on an integer of more than 4300 digits it raises [ValueError], and
      on a list or a dictionary that is not empty it is left to the
      parameter [repr], which returns the text or raises (a
      [RecursionError] on a deeply nested value).  [str(v)] is taken to
      depend on [v] alone.
    - The configuration read from [config.json] at import time
      ([POLICY_DB], [CONFIDENCE_THRESHOLD], [ROUTING_RULES],
      [TRAINING_DATA]) is a parameter; the classification model is a
      record of its two methods.  The orchestrator takes its extraction
      stage as a parameter; [process_document] is that stage, over what
      optical character recognition reads and what the entity recogniser
      finds, which are parameters, as are the data frame and the fitting
      of [train_model].
    - A call to [logging] has no effect on any result.  The f-string it
      is given is evaluated before the call: the one on the first line of
      [check_policy_compliance] interpolates the policy number outside
      the [try], and what [str] raises there is modelled.  The other
      logged f-strings interpolate a caught exception, a string, a float
      or the dictionary of entities that [process_document] has built, on
      which [str] returns; those calls are left out.
    - The orchestrator runs in a monad that logs each stage it invokes. *)

From Stdlib Require Import ZArith List String Ascii Bool Lia.
From Stdlib Require Import Floats.PrimFloat Floats.SpecFloat Floats.FloatOps.
From Stdlib Require Import DecimalString.
Import ListNotations.

Local Open Scope string_scope.
Local Open Scope Z_scope.

(** ** Python values *)

#[local] Set Warnings "-register-all,-inexact-float".

Inductive pyval : Type :=
| PNone
| PBool (b : bool)
| PInt (z : Z)
| PFloat (f : float)
| PStr (s : string)
| PList (l : list pyval)
| PDict (d : list (string * pyval)).

Definition truthy (v : pyval) : bool :=
  match v with
  | PNone => false
  | PBool b => b
  | PInt z => negb (z =? 0)
  | PFloat f => negb (PrimFloat.eqb f PrimFloat.zero)
  | PStr s => negb (String.eqb s "")
  | PList l => match l with [] => false | _ => true end
  | PDict d => match d with [] => false | _ => true end
  end.

(** The Python type of a value, as exception messages name it. *)
Inductive pytype : Type :=
| TNoneType | TBool | TInt | TFloat | TStr | TList | TDict.

Definition type_of (v : pyval) : pytype :=
  match v with
  | PNone => TNoneType
  | PBool _ => TBool
  | PInt _ => TInt
  | PFloat _ => TFloat
  | PStr _ => TStr
  | PList _ => TList
  | PDict _ => TDict
  end.

(** ** Exceptions

    Every exception below is a subclass of Python's [Exception], so an
    [except Exception] clause catches each of them.  The first argument of
    [TypeError] and [ValueError] names the operation that failed. *)

Inductive exn : Type :=
| TypeError (op : string) (operands : list pytype)
| ValueError (op : string) (operands : list pytype)
| KeyError (key : string)
| AttributeError (t : pytype) (attr : string)
| OverflowError
| RecursionError
| LibraryError (msg : string).

Inductive result (A : Type) : Type :=
| Ok (a : A)
| Raise (e : exn).

Arguments Ok {A} a.
Arguments Raise {A} e.

Definition bind {A B : Type} (r : result A) (k : A -> result B) : result B :=
  match r with
  | Ok a => k a
  | Raise e => Raise e
  end.

(** [try: body  except Exception as e: handler e] *)
Definition try_except {A : Type} (body : result A) (handler : exn -> result A)
  : result A :=
  match body with
  | Ok a => Ok a
  | Raise e => handler e
  end.

Declare Scope py_scope.
Delimit Scope py_scope with py.
Notation "x <- c ;; k" := (bind c (fun x => k))
  (at level 61, c at next level, right associativity) : py_scope.

(** ** Numbers: [int], [bool] and [float] compare with one another *)

Inductive num : Type :=
| NInt (z : Z)
| NFloat (f : float).

Definition as_num (v : pyval) : option num :=
  match v with
  | PBool b => Some (NInt (if b then 1 else 0))
  | PInt z => Some (NInt z)
  | PFloat f => Some (NFloat f)
  | _ => None
  end.

(** The exact comparison of a float with an integer: [None] for a NaN. *)
Definition sf_compare_Z (x : spec_float) (z : Z) : option comparison :=
  match x with
  | S754_nan => None
  | S754_infinity s => Some (if s then Lt else Gt)
  | S754_zero _ => Some (0 ?= z)
  | S754_finite s m e =>
      let v := if s then Z.neg m else Z.pos m in
      if 0 <=? e then Some (v * 2 ^ e ?= z)
      else Some (v ?= z * 2 ^ (- e))
  end.

Inductive ordop : Type := OpLt | OpLe | OpGt | OpGe.

Definition ordop_name (op : ordop) : string :=
  match op with
  | OpLt => "<" | OpLe => "<=" | OpGt => ">" | OpGe => ">="
  end.

Definition ordop_swap (op : ordop) : ordop :=
  match op with
  | OpLt => OpGt | OpLe => OpGe | OpGt => OpLt | OpGe => OpLe
  end.

Definition holds (op : ordop) (c : comparison) : bool :=
  match op, c with
  | OpLt, Lt => true
  | OpLe, (Lt | Eq) => true
  | OpGt, Gt => true
  | OpGe, (Gt | Eq) => true
  | _, _ => false
  end.

Definition float_order (op : ordop) (a b : float) : bool :=
  match op with
  | OpLt => PrimFloat.ltb a b
  | OpLe => PrimFloat.leb a b
  | OpGt => PrimFloat.ltb b a
  | OpGe => PrimFloat.leb b a
  end.

Definition float_int_order (op : ordop) (f : float) (z : Z) : bool :=
  match sf_compare_Z (Prim2SF f) z with
  | Some c => holds op c
  | None => false
  end.

Definition num_order (op : ordop) (a b : num) : bool :=
  match a, b with
  | NInt x, NInt y => holds op (x ?= y)
  | NFloat x, NFloat y => float_order op x y
  | NFloat x, NInt y => float_int_order op x y
  | NInt x, NFloat y => float_int_order (ordop_swap op) y x
  end.

Definition num_eq (a b : num) : bool :=
  match a, b with
  | NInt x, NInt y => x =? y
  | NFloat x, NFloat y => PrimFloat.eqb x y
  | NFloat x, NInt y | NInt y, NFloat x =>
      match sf_compare_Z (Prim2SF x) y with
      | Some Eq => true
      | _ => false
      end
  end.

(** ** Dictionaries *)

Fixpoint assoc {A : Type} (k : string) (d : list (string * A)) : option A :=
  match d with
  | [] => None
  | (k', v) :: d' => if String.eqb k k' then Some v else assoc k d'
  end.

(** ** [==] and the ordering comparisons on values *)

Fixpoint py_eq (a b : pyval) {struct a} : bool :=
  match a, b with
  | PNone, PNone => true
  | PStr s, PStr t => String.eqb s t
  | PList l, PList m =>
      (fix all2 (l m : list pyval) : bool :=
         match l, m with
         | [], [] => true
         | x :: l', y :: m' => py_eq x y && all2 l' m'
         | _, _ => false
         end) l m
  | PDict d, PDict e =>
      Nat.eqb (List.length d) (List.length e) &&
      (fix all (d : list (string * pyval)) : bool :=
         match d with
         | [] => true
         | (k, v) :: d' =>
             match assoc k e with
             | Some w => py_eq v w
             | None => false
             end && all d'
         end) d
  | _, _ =>
      match as_num a, as_num b with
      | Some x, Some y => num_eq x y
      | _, _ => false
      end
  end.

Fixpoint py_order (op : ordop) (a b : pyval) {struct a} : result bool :=
  match a, b with
  | PStr s, PStr t => Ok (holds op (String.compare s t))
  | PList l, PList m =>
      (fix scan (l m : list pyval) : result bool :=
         match l, m with
         | x :: l', y :: m' =>
             if py_eq x y then scan l' m' else py_order op x y
         | _, _ =>
             Ok (holds op (Nat.compare (List.length l) (List.length m)))
         end) l m
  | _, _ =>
      match as_num a, as_num b with
      | Some x, Some y => Ok (num_order op x y)
      | _, _ => Raise (TypeError (ordop_name op) [type_of a; type_of b])
      end
  end.

Definition py_lt := py_order OpLt.
Definition py_le := py_order OpLe.
Definition py_gt := py_order OpGt.

(** ** Strings *)

(** [str.lower] on code points below 256: the letters A-Z and the
    Latin-1 capitals U+00C0..U+00DE (U+00D7, the multiplication sign, is
    not a letter) move up by 32; every other code point is unchanged. *)
Definition lower_char (c : ascii) : ascii :=
  let n := N_of_ascii c in
  if ((65 <=? n) && (n <=? 90) ||
      (192 <=? n) && (n <=? 222) && negb (n =? 215))%N
  then ascii_of_N (n + 32) else c.

Fixpoint lower (s : string) : string :=
  match s with
  | EmptyString => EmptyString
  | String c s' => String (lower_char c) (lower s')
  end.

(** [sub in s] for two strings. *)
Fixpoint str_in (sub s : string) : bool :=
  String.prefix sub s ||
  match s with
  | EmptyString => false
  | String _ s' => str_in sub s'
  end.

(** Iterating over a string yields its characters as one-character strings. *)
Fixpoint chars (s : string) : list pyval :=
  match s with
  | EmptyString => []
  | String c s' => PStr (String c EmptyString) :: chars s'
  end.

(** ** Regular expressions, matched at the start of the string as
       [re.match] does *)

Inductive regex : Type :=
| Void
| Eps
| Class (p : ascii -> bool)
| Seq (r1 r2 : regex)
| Alt (r1 r2 : regex)
| Star (r : regex).

Definition Plus (r : regex) : regex := Seq r (Star r).

Definition Chr (c : ascii) : regex := Class (Ascii.eqb c).

Definition Range (lo hi : ascii) : regex :=
  Class (fun c => (N_of_ascii lo <=? N_of_ascii c)%N &&
                  (N_of_ascii c <=? N_of_ascii hi)%N).

Fixpoint Lit (s : string) : regex :=
  match s with
  | EmptyString => Eps
  | String c s' => Seq (Chr c) (Lit s')
  end.

Fixpoint nullable (r : regex) : bool :=
  match r with
  | Void => false
  | Eps => true
  | Class _ => false
  | Seq r1 r2 => nullable r1 && nullable r2
  | Alt r1 r2 => nullable r1 || nullable r2
  | Star _ => true
  end.

Fixpoint deriv (c : ascii) (r : regex) : regex :=
  match r with
  | Void => Void
  | Eps => Void
  | Class p => if p c then Eps else Void
  | Seq r1 r2 =>
      if nullable r1 then Alt (Seq (deriv c r1) r2) (deriv c r2)
      else Seq (deriv c r1) r2
  | Alt r1 r2 => Alt (deriv c r1) (deriv c r2)
  | Star r1 => Seq (deriv c r1) (Star r1)
  end.

(** Some prefix of [s] is in the language of [r]. *)
Fixpoint re_match (r : regex) (s : string) : bool :=
  nullable r ||
  match s with
  | EmptyString => false
  | String c s' => re_match (deriv c r) s'
  end.

(** [\d] on code points below 256 is the ASCII digits. *)
Definition digit : regex := Range "0" "9".

(** The pattern [r"PN-[A-Z]+-\d+"]. *)
Definition policy_number_pattern : regex :=
  Seq (Lit "PN-") (Seq (Plus (Range "A" "Z")) (Seq (Chr "-") (Plus digit))).

(** ** Formatting with [:.2f] *)

Definition digit_char (d : Z) : ascii := ascii_of_N (48 + Z.to_N d).

Definition decimal (z : Z) : string :=
  NilZero.string_of_uint (N.to_uint (Z.to_N z)).

(** [n] hundredths, [n >= 0], printed with two decimals. *)
Definition hundredths (n : Z) : string :=
  decimal (n / 100) ++ "." ++
  String (digit_char (n mod 100 / 10))
         (String (digit_char (n mod 10)) EmptyString).

(** [m * 2^e * 100] rounded to the nearest integer, ties to even. *)
Definition round_hundredths (m : positive) (e : Z) : Z :=
  if 0 <=? e then Z.pos m * 2 ^ e * 100
  else
    let d := 2 ^ (- e) in
    let q := (Z.pos m * 100) / d in
    let r := (Z.pos m * 100) mod d in
    match 2 * r ?= d with
    | Lt => q
    | Gt => q + 1
    | Eq => if Z.even q then q else q + 1
    end.

Definition sf_format_2f (x : spec_float) : string :=
  match x with
  | S754_nan => "nan"
  | S754_infinity s => if s then "-inf" else "inf"
  | S754_zero s => if s then "-0.00" else "0.00"
  | S754_finite s m e =>
      (if s then "-" else "") ++ hundredths (round_hundredths m e)
  end.

(** [float(z)] for an integer [z]: the nearest float, [OverflowError]
    when it is out of range. *)
Definition float_of_int (z : Z) : result spec_float :=
  match binary_normalize prec emax z 0 false with
  | S754_infinity _ => Raise OverflowError
  | x => Ok x
  end.

Definition format_2f (v : pyval) : result string :=
  match v with
  | PFloat f => Ok (sf_format_2f (Prim2SF f))
  | PInt z => (x <- float_of_int z ;; Ok (sf_format_2f x))%py
  | PBool b => Ok (if b then "1.00" else "0.00")
  | PStr _ => Raise (ValueError "format" [TStr])
  | _ => Raise (TypeError "format" [type_of v])
  end.

(** ** Operations on values *)

(** [d.get(k, default)] on the entries of a dictionary. *)
Definition get (d : list (string * pyval)) (k : string) (default : pyval)
  : pyval :=
  match assoc k d with
  | Some v => v
  | None => default
  end.

(** [v.get(key)]: only a dictionary has the method; a list or a
    dictionary cannot be a key; the keys of a loaded document are strings. *)
Definition py_get (v key : pyval) : result pyval :=
  match v with
  | PDict d =>
      match key with
      | PStr k => Ok (get d k PNone)
      | PList _ | PDict _ => Raise (TypeError "hash" [type_of key])
      | _ => Ok PNone
      end
  | _ => Raise (AttributeError (type_of v) "get")
  end.

(** [v[k]] for a string [k]. *)
Definition py_getitem (v : pyval) (k : string) : result pyval :=
  match v with
  | PDict d =>
      match assoc k d with
      | Some x => Ok x
      | None => Raise (KeyError k)
      end
  | _ => Raise (TypeError "subscript" [type_of v; TStr])
  end.

(** [x in c]. *)
Definition py_in (x c : pyval) : result bool :=
  match c with
  | PStr s =>
      match x with
      | PStr t => Ok (str_in t s)
      | _ => Raise (TypeError "in" [type_of x; TStr])
      end
  | PList l => Ok (existsb (fun item => py_eq item x) l)
  | PDict d =>
      match x with
      | PStr k => Ok (match assoc k d with Some _ => true | None => false end)
      | PList _ | PDict _ => Raise (TypeError "hash" [type_of x])
      | _ => Ok false
      end
  | _ => Raise (TypeError "in" [type_of x; type_of c])
  end.

(** The items a [for] loop over [v] visits. *)
Definition py_iter (v : pyval) : result (list pyval) :=
  match v with
  | PList l => Ok l
  | PStr s => Ok (chars s)
  | PDict d => Ok (map (fun kv => PStr (fst kv)) d)
  | _ => Raise (TypeError "iter" [type_of v])
  end.

(** [v.lower()]. *)
Definition py_lower (v : pyval) : result string :=
  match v with
  | PStr s => Ok (lower s)
  | _ => Raise (AttributeError (type_of v) "lower")
  end.

(** [re.match(r, v)] is not None. *)
Definition py_re_match (r : regex) (v : pyval) : result bool :=
  match v with
  | PStr s => Ok (re_match r s)
  | _ => Raise (TypeError "re.match" [type_of v])
  end.

(** ** The stages of the pipeline and the log of their invocations *)

Inductive stage : Type :=
| Extracting
| Classifying
| CheckingCompliance
| Routing.

(** A computation of the orchestrator: it appends to the log of the stages
    invoked so far, and returns or raises. *)
Definition M (A : Type) : Type := list stage -> result A * list stage.

Definition ret {A : Type} (a : A) : M A := fun log => (Ok a, log).

Definition mbind {A B : Type} (c : M A) (k : A -> M B) : M B :=
  fun log =>
    match c log with
    | (Ok a, log') => k a log'
    | (Raise e, log') => (Raise e, log')
    end.

Definition lift {A : Type} (r : result A) : M A := fun log => (r, log).

(** Invoking stage [s], whose call evaluates to [r]. *)
Definition invoke {A : Type} (s : stage) (r : result A) : M A :=
  fun log => (r, (log ++ [s])%list).

Definition m_try_except {A : Type} (body : M A) (handler : exn -> M A) : M A :=
  fun log =>
    match body log with
    | (Ok a, log') => (Ok a, log')
    | (Raise e, log') => handler e log'
    end.

Declare Scope pipeline_scope.
Delimit Scope pipeline_scope with pipeline.
Notation "x <- c ;; k" := (mbind c (fun x => k))
  (at level 61, c at next level, right associativity) : pipeline_scope.
Notation "' pat <- c ;; k" := (mbind c (fun x => match x with pat => k end))
  (at level 61, pat pattern, c at next level, right associativity)
  : pipeline_scope.

(** The classification model: what [model.predict([text])[0]] and
    [model.predict_proba([text]).max()] evaluate to. *)
Record sk_model : Type := {
  predict : string -> result string;
  predict_proba_max : string -> result float
}.

Record ClaimsPipeline : Type := {
  classifier : sk_model
}.

(** The default of [sys.get_int_max_str_digits()]: [str] of an integer
    with more digits raises [ValueError]. *)
Definition int_max_str_digits : nat := 4300.

(** ** The engines and the orchestrator *)

Section Pipeline.

(** What the Python runtime produces: the text of [str(e)] for a caught
    exception, the text of a float, and for [str(v)] on a list or a
    dictionary that is not empty the text or the exception it raises. *)
Variable exn_str : exn -> string.
Variable float_repr : float -> string.
Variable repr : pyval -> result string.

(** The configuration loaded from [config.json] when the modules are
    imported. *)
Variable POLICY_DB : pyval.
Variable CONFIDENCE_THRESHOLD : pyval.
Variable ROUTING_RULES : pyval.

(** The extraction collaborator of [document_processor.py]: the result
    of optical character recognition and entity extraction on an image. *)
Variable process_document : string -> pyval * pyval.

(** [str(v)], as an f-string interpolates it.  An integer of more than
    [int_max_str_digits] digits, one whose absolute value is 10 to that
    power or more, is not converted. *)
Definition py_str (v : pyval) : result string :=
  match v with
  | PStr s => Ok s
  | PNone => Ok "None"
  | PBool b => Ok (if b then "True" else "False")
  | PInt z =>
      if 10 ^ Z.of_nat int_max_str_digits <=? Z.abs z
      then Raise (ValueError "str" [TInt])
      else Ok (if z <? 0 then "-" ++ decimal (- z) else decimal z)
  | PFloat f => Ok (float_repr f)
  | PList [] => Ok "[]"
  | PDict [] => Ok "{}"
  | PList _ | PDict _ => repr v
  end.

(** *** compliance_checker.py *)

(** The loop over the exclusions: the first one found in the lowered
    claim text. *)
Fixpoint scan_exclusions (exclusions : list pyval) (claim_details : pyval)
  : result (option pyval) :=
  match exclusions with
  | [] => Ok None
  | exclusion :: rest =>
      (text <- py_lower claim_details ;;
       found <- py_in exclusion (PStr text) ;;
       if found then Ok (Some exclusion)
       else scan_exclusions rest claim_details)%py
  end.

(** The first statement logs the policy number: the f-string is
    evaluated before the [try] is entered, so what [str] raises there
    leaves the function. *)
Definition check_policy_compliance
  (policy_number claim_type claim_details : pyval) : result (bool * string) :=
  (_logged <- py_str policy_number ;;
   try_except
     (if negb (truthy policy_number) || negb (truthy claim_type)
         || negb (truthy claim_details)
      then Ok (false,
               "Invalid Data (Missing Policy No., Claim Type, or Claim Details)")
      else
        matched <- py_re_match policy_number_pattern policy_number ;;
        if negb matched
        then
          shown <- py_str policy_number ;;
          Ok (false, "Invalid Policy Number format: " ++ shown)
        else
          policy <- py_get POLICY_DB policy_number ;;
          if negb (truthy policy)
          then
            shown <- py_str policy_number ;;
            Ok (false, "Policy " ++ shown ++ " not found")
          else
            coverage <- py_getitem policy "coverage" ;;
            covered <- py_in claim_type coverage ;;
            if negb covered
            then
              shown <- py_str claim_type ;;
              Ok (false, "Claim type '" ++ shown ++ "' is not covered.")
            else
              exclusions <- py_getitem policy "exclusions" ;;
              items <- py_iter exclusions ;;
              hit <- scan_exclusions items claim_details ;;
              match hit with
              | Some exclusion =>
                  shown <- py_str exclusion ;;
                  Ok (false,
                      "Claim rejected due to exclusion clause: '"
                        ++ shown ++ "'.")
              | None => Ok (true, "Compliant")
              end)
     (fun e => Ok (false, "Compliance check failed: " ++ exn_str e)))%py.

(** *** workflow_router.py *)

Definition routing (decision reason : string) : pyval :=
  PDict [("decision", PStr decision); ("reason", PStr reason)].

(** [claim_data.get("value") and claim_data["value"] op ROUTING_RULES[key]] *)
Definition value_rule (claim_data : pyval) (d : list (string * pyval))
  (op : ordop) (key : string) : result bool :=
  if truthy (get d "value" PNone)
  then (value <- py_getitem claim_data "value" ;;
        threshold <- py_getitem ROUTING_RULES key ;;
        py_order op value threshold)%py
  else Ok false.

Definition intelligent_route (claim_data : pyval) : result pyval :=
  try_except
    (match claim_data with
     | PDict d =>
         (low <- py_lt (get d "confidence" (PFloat 0)) CONFIDENCE_THRESHOLD ;;
          if low
          then
            shown <- format_2f (get d "confidence" (PFloat 0)) ;;
            Ok (routing "Flag for Manual Review"
                  ("Low classification confidence (" ++ shown ++ ")"))
          else if negb (truthy (get d "is_compliant" (PBool false)))
          then
            shown <- py_str (get d "compliance_reason" (PStr "Unknown")) ;;
            Ok (routing "Auto-Deny" ("Non-compliant: " ++ shown))
          else
            senior <- (if py_eq (get d "priority" PNone) (PStr "High")
                       then Ok true
                       else value_rule claim_data d OpGt "high_value_threshold") ;;
            if senior
            then Ok (routing "Route to Senior Adjuster"
                       "High priority or high value claim")
            else
              stp <- value_rule claim_data d OpLe "stp_threshold" ;;
              if stp
              then Ok (routing "Route to Straight-Through Processing (STP)"
                         "Low-value, compliant claim")
              else Ok (routing "Route to General Claims Queue"
                         "Standard claim"))%py
     | _ => Ok (routing "Flag for Review" "Invalid claim data format.")
     end)
    (fun e =>
       Ok (routing "Flag for Manual Review" ("Routing error: " ++ exn_str e))).

(** *** claim_classifier.py *)

Definition high_priority_keywords : list string :=
  ["major"; "fire"; "totaled"; "emergency"; "collision"].

Definition priority_of (claim_text : string) : string :=
  if existsb (fun kw => str_in kw (lower claim_text)) high_priority_keywords
  then "High" else "Medium".

Definition classify_claim (model : option sk_model) (claim_text : pyval)
  : pyval * pyval * pyval :=
  match model, claim_text with
  | Some m, PStr text =>
      if negb (truthy claim_text) then (PNone, PFloat 0, PNone)
      else
        match (claim_type <- predict m text ;;
               confidence <- predict_proba_max m text ;;
               Ok (claim_type, confidence))%py with
        | Ok (claim_type, confidence) =>
            (PStr claim_type, PFloat confidence, PStr (priority_of text))
        | Raise _ => (PNone, PFloat 0, PNone)
        end
  | _, _ => (PNone, PFloat 0, PNone)
  end.

(** *** pipeline.py *)

Definition failed (reason : string) : pyval :=
  PDict [("status", PStr "Failed"); ("reason", PStr reason)].

Definition run (self : ClaimsPipeline) (image_path : string) : M pyval :=
  m_try_except
    ('(entities, text) <- invoke Extracting (Ok (process_document image_path)) ;;
     if negb (truthy entities) || negb (truthy text)
     then ret (failed
       "Could not process document. The image may be unreadable or blank.")
     else
       '(claim_type, confidence, priority) <-
         invoke Classifying (Ok (classify_claim (Some (classifier self)) text)) ;;
       if negb (truthy claim_type)
       then ret (failed "Could not classify the claim from the text.")
       else
         policy_no <- lift (py_get entities (PStr "POLICY_NO")) ;;
         '(is_compliant, reason) <-
           invoke CheckingCompliance
             (check_policy_compliance policy_no claim_type text) ;;
         value <- lift (py_get entities (PStr "CLAIM_VALUE")) ;;
         let claim_data :=
           PDict [("entities", entities);
                  ("type", claim_type);
                  ("confidence", confidence);
                  ("priority", priority);
                  ("value", value);
                  ("is_compliant", PBool is_compliant);
                  ("compliance_reason", PStr reason)] in
         final_decision <- invoke Routing (intelligent_route claim_data) ;;
         shown <- lift (format_2f confidence) ;;
         ret (PDict
                [("status", PStr "Success");
                 ("extracted_data", entities);
                 ("classification",
                  PDict [("type", claim_type);
                         ("priority", priority);
                         ("confidence", PStr shown)]);
                 ("compliance",
                  PDict [("compliant", PBool is_compliant);
                         ("details", PStr reason)]);
                 ("final_routing", final_decision)]))%pipeline
    (fun e => ret (failed ("An unexpected error occurred: " ++ exn_str e))).

End Pipeline.

(** ** Notions the properties are stated with *)

(** The language of a regular expression. *)
Inductive matches : regex -> string -> Prop :=
| MEps : matches Eps EmptyString
| MClass (p : ascii -> bool) (c : ascii) :
    p c = true -> matches (Class p) (String c EmptyString)
| MSeq (r1 r2 : regex) (s1 s2 : string) :
    matches r1 s1 -> matches r2 s2 -> matches (Seq r1 r2) (s1 ++ s2)
| MAltL (r1 r2 : regex) (s : string) :
    matches r1 s -> matches (Alt r1 r2) s
| MAltR (r1 r2 : regex) (s : string) :
    matches r2 s -> matches (Alt r1 r2) s
| MStarNil (r : regex) : matches (Star r) EmptyString
| MStarApp (r : regex) (s1 s2 : string) :
    matches r s1 -> matches (Star r) s2 -> matches (Star r) (s1 ++ s2).

Fixpoint all_chars (p : ascii -> bool) (s : string) : bool :=
  match s with
  | EmptyString => true
  | String c s' => p c && all_chars p s'
  end.

Definition is_upper (c : ascii) : bool :=
  (N_of_ascii "A" <=? N_of_ascii c)%N && (N_of_ascii c <=? N_of_ascii "Z")%N.

Definition is_digit (c : ascii) : bool :=
  (N_of_ascii "0" <=? N_of_ascii c)%N && (N_of_ascii c <=? N_of_ascii "9")%N.

(** A policy number in the format PN-<letters>-<digits>. *)
Definition well_formed_policy_number (s : string) : Prop :=
  exists letters digits : string,
    s = "PN-" ++ letters ++ "-" ++ digits /\
    letters <> EmptyString /\ all_chars is_upper letters = true /\
    digits <> EmptyString /\ all_chars is_digit digits = true.

(** A policy number in the format, followed by further characters. *)
Definition followed_by_text (s : string) : Prop :=
  exists number rest,
    s = number ++ rest /\ rest <> EmptyString /\
    well_formed_policy_number number.

(** [sub] occurs in [s] when case is ignored. *)
Definition ci_in (sub s : string) : bool := str_in (lower sub) (lower s).

(** [d[k] = v] and [d.pop(k, None)] on the entries of a dictionary. *)
Fixpoint dict_set (k : string) (v : pyval) (d : list (string * pyval))
  : list (string * pyval) :=
  match d with
  | [] => [(k, v)]
  | (k', v') :: d' =>
      if String.eqb k k' then (k, v) :: d' else (k', v') :: dict_set k v d'
  end.

Fixpoint dict_del (k : string) (d : list (string * pyval))
  : list (string * pyval) :=
  match d with
  | [] => []
  | (k', v') :: d' =>
      if String.eqb k k' then dict_del k d' else (k', v') :: dict_del k d'
  end.

(** The ["decision"] entry of a routing result. *)
Definition decision_of (r : result pyval) : option string :=
  match r with
  | Ok (PDict d) =>
      match assoc "decision" d with
      | Some (PStr s) => Some s
      | _ => None
      end
  | _ => None
  end.

(** The five routing rules, in the order the router tests them. *)
Inductive rule : Type :=
| LowConfidence
| NonCompliant
| SeniorAdjuster
| StraightThrough
| GeneralQueue.

Definition all_rules : list rule :=
  [LowConfidence; NonCompliant; SeniorAdjuster; StraightThrough; GeneralQueue].

Definition rule_decision (r : rule) : string :=
  match r with
  | LowConfidence => "Flag for Manual Review"
  | NonCompliant => "Auto-Deny"
  | SeniorAdjuster => "Route to Senior Adjuster"
  | StraightThrough => "Route to Straight-Through Processing (STP)"
  | GeneralQueue => "Route to General Claims Queue"
  end.

(** The rules tested before [r]. *)
Definition earlier (r : rule) : list rule :=
  match r with
  | LowConfidence => []
  | NonCompliant => [LowConfidence]
  | SeniorAdjuster => [LowConfidence; NonCompliant]
  | StraightThrough => [LowConfidence; NonCompliant; SeniorAdjuster]
  | GeneralQueue =>
      [LowConfidence; NonCompliant; SeniorAdjuster; StraightThrough]
  end.

Section Rules.

Variable CONFIDENCE_THRESHOLD : pyval.
Variable ROUTING_RULES : pyval.

(** The test of each rule on the entries [d] of a claim record. *)
Definition condition (r : rule) (d : list (string * pyval)) : result bool :=
  match r with
  | LowConfidence =>
      py_lt (get d "confidence" (PFloat 0)) CONFIDENCE_THRESHOLD
  | NonCompliant =>
      Ok (negb (truthy (get d "is_compliant" (PBool false))))
  | SeniorAdjuster =>
      if py_eq (get d "priority" PNone) (PStr "High") then Ok true
      else value_rule ROUTING_RULES (PDict d) d OpGt "high_value_threshold"
  | StraightThrough =>
      value_rule ROUTING_RULES (PDict d) d OpLe "stp_threshold"
  | GeneralQueue => Ok true
  end.

Definition is_ok (b : bool) (r : result bool) : bool :=
  match r with
  | Ok b' => Bool.eqb b b'
  | Raise _ => false
  end.

(** Rule [r] fires: its test holds and the test of every earlier rule
    fails. *)
Definition fires (d : list (string * pyval)) (r : rule) : bool :=
  is_ok true (condition r d) &&
  forallb (fun r' => is_ok false (condition r' d)) (earlier r).

End Rules.

Definition is_number (v : pyval) : bool :=
  match as_num v with
  | Some _ => true
  | None => false
  end.

(** The two thresholds of the routing configuration are numbers, and so is
    the confidence threshold. *)
Definition numeric_config (CONFIDENCE_THRESHOLD ROUTING_RULES : pyval) : Prop :=
  is_number CONFIDENCE_THRESHOLD = true /\
  exists high stp,
    py_getitem ROUTING_RULES "high_value_threshold" = Ok high /\
    is_number high = true /\
    py_getitem ROUTING_RULES "stp_threshold" = Ok stp /\
    is_number stp = true.

(** A claim record: the confidence, when present, is a number; the claim
    value, when present, is None or a number. *)
Definition claim_record (d : list (string * pyval)) : Prop :=
  is_number (get d "confidence" (PFloat 0)) = true /\
  (get d "value" PNone = PNone \/ is_number (get d "value" PNone) = true).

(** The compliance reason of a claim record, when present, is a string:
    the reason the compliance engine returned. *)
Definition textual_reason (d : list (string * pyval)) : Prop :=
  exists reason, get d "compliance_reason" (PStr "Unknown") = PStr reason.

(** [str(v)] returns: no exception is raised. *)
Definition str_returns (float_repr : float -> string)
  (repr : pyval -> result string) (v : pyval) : Prop :=
  exists shown, py_str float_repr repr v = Ok shown.

(** The keys the router reads. *)
Definition routing_keys : list string :=
  ["confidence"; "is_compliant"; "compliance_reason"; "priority"; "value"].

(** The record of a successful run. *)
Definition success_record (entities claim_type priority : pyval)
  (shown : string) (is_compliant : bool) (details : string)
  (final_decision : pyval) : pyval :=
  PDict
    [("status", PStr "Success");
     ("extracted_data", entities);
     ("classification",
      PDict [("type", claim_type);
             ("priority", priority);
             ("confidence", PStr shown)]);
     ("compliance",
      PDict [("compliant", PBool is_compliant); ("details", PStr details)]);
     ("final_routing", final_decision)].

(** ** document_processor.py *)

(** Whitespace, as [str.strip] and [\s] see it on code points below 256. *)
Definition is_space (c : ascii) : bool :=
  let n := N_of_ascii c in
  ((9 <=? n) && (n <=? 13) || (28 <=? n) && (n <=? 32) ||
   (n =? 133) || (n =? 160))%N.

Fixpoint lstrip (s : string) : string :=
  match s with
  | EmptyString => EmptyString
  | String c s' => if is_space c then lstrip s' else s
  end.

Fixpoint rstrip (s : string) : string :=
  match s with
  | EmptyString => EmptyString
  | String c s' =>
      match rstrip s' with
      | EmptyString => if is_space c then EmptyString else String c EmptyString
      | r => String c r
      end
  end.

Definition strip (s : string) : string := rstrip (lstrip s).

(** [s.replace] of every comma by the empty string *)
Fixpoint remove_commas (s : string) : string :=
  match s with
  | EmptyString => EmptyString
  | String c s' =>
      if Ascii.eqb c "," then remove_commas s' else String c (remove_commas s')
  end.

(** *** Patterns with one group, searched as [re.search] does

    A pattern is a sequence of character classes, each with a greedy
    quantifier; the classes of the group are marked.  An item first takes
    as many characters as it can and gives them back one by one while the
    rest of the pattern does not match. *)

Inductive quantifier : Type :=
| One
| OneOrMore
| ZeroOrMore
| ZeroOrOne.

Record item : Type := {
  accepts : ascii -> bool;
  quantity : quantifier;
  in_group : bool
}.

(** The length of the longest prefix of [s] whose characters [p] accepts. *)
Fixpoint run_length (p : ascii -> bool) (s : string) : nat :=
  match s with
  | EmptyString => O
  | String c s' => if p c then S (run_length p s') else O
  end.

(** The numbers of characters an item tries to take, in order, when
    [available] characters can be taken. *)
Definition attempts (q : quantifier) (available : nat) : list nat :=
  match q with
  | One => if Nat.leb 1 available then [1%nat] else []
  | OneOrMore => rev (seq 1 available)
  | ZeroOrMore => rev (seq 0 (S available))
  | ZeroOrOne => if Nat.leb 1 available then [1%nat; O] else [O]
  end.

Fixpoint first_some {A B : Type} (f : A -> option B) (l : list A) : option B :=
  match l with
  | [] => None
  | a :: l' =>
      match f a with
      | Some b => Some b
      | None => first_some f l'
      end
  end.

(** The text of the group when the pattern matches at the start of [s]. *)
Fixpoint match_items (items : list item) (s : string) : option string :=
  match items with
  | [] => Some EmptyString
  | it :: rest =>
      first_some
        (fun n =>
           match match_items rest (substring n (String.length s - n) s) with
           | Some g =>
               Some (if in_group it then substring 0 n s ++ g else g)
           | None => None
           end)
        (attempts (quantity it) (run_length (accepts it) s))
  end.

(** [re.search(items, s).group(1)], when there is a match: the match
    that starts leftmost. *)
Fixpoint re_search (items : list item) (s : string) : option string :=
  match match_items items s with
  | Some g => Some g
  | None =>
      match s with
      | EmptyString => None
      | String _ s' => re_search items s'
      end
  end.

(** A literal under [re.IGNORECASE]. *)
Fixpoint literal_ci (s : string) : list item :=
  match s with
  | EmptyString => []
  | String c s' =>
      {| accepts := fun t => Ascii.eqb (lower_char t) (lower_char c);
         quantity := One; in_group := false |} :: literal_ci s'
  end.

Definition is_ascii_letter (c : ascii) : bool :=
  let n := N_of_ascii c in
  ((65 <=? n) && (n <=? 90) || (97 <=? n) && (n <=? 122))%N.

(** [[:\s]] *)
Definition is_separator (c : ascii) : bool := Ascii.eqb c ":" || is_space c.

(** [[A-Z0-9\-]] under [re.IGNORECASE] *)
Definition is_policy_char (c : ascii) : bool :=
  is_ascii_letter c || is_digit c || Ascii.eqb c "-".

(** [[\d,]] *)
Definition is_amount_char (c : ascii) : bool := is_digit c || Ascii.eqb c ",".

(** The pattern [Policy No[:\s]+([A-Z0-9\-]+)] with [re.IGNORECASE] *)
Definition policy_no_pattern : list item :=
  (literal_ci "Policy No" ++
   [{| accepts := is_separator; quantity := OneOrMore; in_group := false |};
    {| accepts := is_policy_char; quantity := OneOrMore; in_group := true |}])%list.

(** The pattern of the claim amount, with [re.IGNORECASE]: the words
    Claim Amount, [[:\s]+], an optional dollar sign and the group, which
    is [[\d,]+], an optional point and then any number of digits. *)
Definition claim_amount_pattern : list item :=
  (literal_ci "Claim Amount" ++
   [{| accepts := is_separator; quantity := OneOrMore; in_group := false |};
    {| accepts := Ascii.eqb "$"; quantity := ZeroOrOne; in_group := false |};
    {| accepts := is_amount_char; quantity := OneOrMore; in_group := true |};
    {| accepts := Ascii.eqb "."; quantity := ZeroOrOne; in_group := true |};
    {| accepts := is_digit; quantity := ZeroOrMore; in_group := true |}])%list.

(** *** [float(s)] on digits with at most one point *)

(** The number a string of digits writes, after [acc]. *)
Fixpoint digits_value (acc : Z) (s : string) : option Z :=
  match s with
  | EmptyString => Some acc
  | String c s' =>
      if is_digit c
      then digits_value (acc * 10 + (Z.of_N (N_of_ascii c) - 48)) s'
      else None
  end.

(** The digits before and after the first point. *)
Fixpoint split_point (s : string) : string * option string :=
  match s with
  | EmptyString => (EmptyString, None)
  | String c s' =>
      if Ascii.eqb c "." then (EmptyString, Some s')
      else let (a, b) := split_point s' in (String c a, b)
  end.

(** [n / 10^k], rounded to the nearest float, ties to even. *)
Definition decimal_to_float (n : Z) (k : nat) : spec_float :=
  match n with
  | Zpos m =>
      SFdiv prec emax (S754_finite false m 0)
        (S754_finite false (Z.to_pos (10 ^ Z.of_nat k)) 0)
  | _ => S754_zero false
  end.

(** [float(s)] for a string of digits with at most one point in it: a
    string without a digit is not a number. *)
Definition py_float (s : string) : result float :=
  let (whole, frac) := split_point s in
  let frac := match frac with Some f => f | None => EmptyString end in
  if String.eqb (whole ++ frac) ""
  then Raise (ValueError "float" [TStr])
  else
    match digits_value 0 (whole ++ frac) with
    | Some n => Ok (SF2Prim (decimal_to_float n (String.length frac)))
    | None => Raise (ValueError "float" [TStr])
    end.

(** *** The document processor *)

Section DocumentProcessor.

(** What optical character recognition reads on the image at a path
    (opening, preprocessing and reading the image), and the entity
    recogniser [SpacyModel().nlp]: it gives the label and the text of
    each entity of a text.  Each can raise. *)
Variable image_to_string : string -> result string.
Variable SpacyModel_nlp : result (string -> result (list (string * string))).

Definition ent_texts (label : string) (ents : list (string * string))
  : list pyval :=
  map (fun ent => PStr (snd ent))
    (filter (fun ent => String.eqb (fst ent) label) ents).

Definition process_document (image_path : string) : pyval * pyval :=
  match
    (extracted_text <- image_to_string image_path ;;
     if negb (truthy (PStr (strip extracted_text)))
        || Nat.ltb (String.length extracted_text) 50
     then Ok (PNone, PNone)
     else
       nlp <- SpacyModel_nlp ;;
       let policy_no :=
         match re_search policy_no_pattern extracted_text with
         | Some g => PStr (strip g)
         | None => PNone
         end in
       claim_value <-
         match re_search claim_amount_pattern extracted_text with
         | Some g => (f <- py_float (remove_commas g) ;; Ok (PFloat f))
         | None => Ok PNone
         end ;;
       ents <- nlp extracted_text ;;
       Ok (PDict [("PERSON", PList (ent_texts "PERSON" ents));
                  ("DATE", PList (ent_texts "DATE" ents));
                  ("POLICY_NO", policy_no);
                  ("CLAIM_VALUE", claim_value)],
           PStr extracted_text))%py
  with
  | Ok r => r
  | Raise _ => (PNone, PNone)
  end.

End DocumentProcessor.

(** *** Notions for the document processor *)

(** A string that does not go on with a character of [p]. *)
Definition stops (p : ascii -> bool) (s : string) : Prop :=
  match s with
  | EmptyString => True
  | String c _ => p c = false
  end.

(** The characters that would go on an amount. *)
Definition after_amount (c : ascii) : bool :=
  is_amount_char c || Ascii.eqb c ".".

(** A float that is zero, positive or plus infinity. *)
Definition sf_nonnegative (x : spec_float) : Prop :=
  match x with
  | S754_zero s | S754_infinity s | S754_finite s _ _ => s = false
  | S754_nan => False
  end.

(** ** claim_classifier.py and pipeline.py: training and construction *)

(** What the data frame built from the training data shows: its column
    labels and its number of rows. *)
Record data_frame : Type := {
  columns : list pyval;
  rows : nat
}.

(** The outcome of a constructor that raises [RuntimeError]. *)
Inductive construction (A : Type) : Type :=
| Constructed (a : A)
| RuntimeError (msg : string).

Arguments Constructed {A} a.
Arguments RuntimeError {A} msg.

Section Training.

Variable TRAINING_DATA : pyval.

(** [pd.DataFrame] on the training data, and the fitting of a
    [TfidfVectorizer] and [MultinomialNB] pipeline on the two columns of a
    frame.  Each can raise. *)
Variable DataFrame : pyval -> result data_frame.
Variable fit : data_frame -> result sk_model.

Definition has_column (label : string) (df : data_frame) : bool :=
  existsb (fun c => py_eq c (PStr label)) (columns df).

(** [train_model]: the fitted model, or None. *)
Definition train_model : option sk_model :=
  match
    (df <- DataFrame TRAINING_DATA ;;
     if negb (has_column "description" df) || negb (has_column "claim_type" df)
     then Raise (KeyError
       "TRAINING_DATA must contain 'description' and 'claim_type' fields.")
     else if Nat.ltb (rows df) 2
     then Raise (ValueError
       "TRAINING_DATA must contain at least 2 samples for training." [])
     else fit df)%py
  with
  | Ok model => Some model
  | Raise _ => None
  end.

(** [ClaimsPipeline()] *)
Definition ClaimsPipeline_init : construction ClaimsPipeline :=
  match train_model with
  | Some model => Constructed {| classifier := model |}
  | None =>
      RuntimeError "Failed to initialize the claims classification model."
  end.

End Training.

(** ** A sample configuration, for the scenarios of the specification *)

Definition sample_render {A : Type} (_ : A) : string := "...".

(** How deep lists and dictionaries are nested in a value. *)
Fixpoint nesting (v : pyval) : nat :=
  match v with
  | PList l =>
      S ((fix deepest (l : list pyval) : nat :=
            match l with
            | [] => O
            | x :: l' => Nat.max (nesting x) (deepest l')
            end) l)
  | PDict d =>
      S ((fix deepest (d : list (string * pyval)) : nat :=
            match d with
            | [] => O
            | (_, x) :: d' => Nat.max (nesting x) (deepest d')
            end) d)
  | _ => O
  end.

(** A runtime in which the text of a value nested more than a thousand
    deep is not produced. *)
Definition sample_repr (v : pyval) : result string :=
  if (1000 <? nesting v)%nat then Raise RecursionError else Ok "...".

(** A list in a list in a list, 1001 deep. *)
Definition deeply_nested : pyval := Nat.iter 1001 (fun v => PList [v]) PNone.

Definition sample_rules : pyval :=
  PDict [("high_value_threshold", PInt 10000); ("stp_threshold", PInt 1000)].

Definition sample_claim (confidence : float) (priority : string)
  (value : pyval) (is_compliant : bool) : list (string * pyval) :=
  [("entities", PDict []);
   ("type", PStr "collision");
   ("confidence", PFloat confidence);
   ("priority", PStr priority);
   ("value", value);
   ("is_compliant", PBool is_compliant);
   ("compliance_reason", PStr "Compliant")].

Definition sample_policy_db : pyval :=
  PDict [("PN-AUTO-1001",
          PDict [("coverage", PList [PStr "collision"]);
                 ("exclusions", PList [PStr "war"; PStr "racing"])])].

Definition sample_model : sk_model :=
  {| predict := fun _ => Ok "collision";
     predict_proba_max := fun _ => Ok 0.9%float |}.

(** A model whose prediction raises. *)
Definition unfitted_model : sk_model :=
  {| predict := fun _ => Raise (LibraryError "NotFittedError");
     predict_proba_max := fun _ => Ok 0.9%float |}.

Definition sample_pipeline : ClaimsPipeline :=
  {| classifier := sample_model |}.

Definition sample_entities : pyval :=
  PDict [("PERSON", PList [PStr "Jane Roe"]);
         ("DATE", PList []);
         ("POLICY_NO", PStr "PN-AUTO-1001");
         ("CLAIM_VALUE", PFloat 12000)].

Definition sample_document (image_path : string) : pyval * pyval :=
  if String.eqb image_path "claim.png"
  then (sample_entities,
        PStr "Policy No: PN-AUTO-1001 Claim Amount: $12,000 Major collision damage")
  else (PNone, PNone).

Definition sample_route : pyval -> result pyval :=
  intelligent_route sample_render sample_render sample_repr (PFloat 0.6) sample_rules.

Definition sample_check : pyval -> pyval -> pyval -> result (bool * string) :=
  check_policy_compliance sample_render sample_render sample_repr sample_policy_db.

(** What is read on four scanned forms; any other image cannot be opened. *)
Definition sample_scan (image_path : string) : result string :=
  if String.eqb image_path "claim.png"
  then Ok "Policy No: PN-AUTO-1001 Claim Amount: $12,000 Major collision damage"
  else if String.eqb image_path "amount.png"
  then Ok "Claim Amount: $12,000 for Policy No: PN-AUTO-1001 after a collision"
  else if String.eqb image_path "commas.png"
  then Ok "Claim Amount: ,,, and Policy No: PN-AUTO-1001 for a major collision"
  else if String.eqb image_path "short.png"
  then Ok "Policy No: PN-AUTO-1001"
  else Raise (LibraryError "FileNotFoundError").

Definition sample_nlp : result (string -> result (list (string * string))) :=
  Ok (fun _ => Ok [("PERSON", "Jane Roe"); ("ORG", "Acme"); ("DATE", "5 May")]).

Definition sample_process : string -> pyval * pyval :=
  process_document sample_scan sample_nlp.

Definition sample_entities_read : pyval :=
  PDict [("PERSON", PList [PStr "Jane Roe"]);
         ("DATE", PList [PStr "5 May"]);
         ("POLICY_NO", PStr "PN-AUTO-1001");
         ("CLAIM_VALUE", PFloat 12000)].

Definition sample_run_on (self : ClaimsPipeline) (image_path : string)
  : result pyval * list stage :=
  run sample_render sample_render sample_repr sample_policy_db (PFloat 0.6) sample_rules
    sample_process self image_path [].

(** A scanned form with a claim amount of zero. *)
Definition zero_amount_scan (image_path : string) : result string :=
  Ok "Policy No: PN-AUTO-1001 Claim Amount: $0 for a dented bumper in the car park".

(** An extraction stage that yields a deeply nested list as the policy
    number. *)
Definition nested_document (image_path : string) : pyval * pyval :=
  (PDict [("POLICY_NO", deeply_nested)], PStr "collision damage").

(** ** Strings and regular expressions *)

Lemma prefix_spec (sub s : string) :
  String.prefix sub s = true <-> exists rest, s = sub ++ rest.
Proof.
  revert s; induction sub as [|c sub IH]; intros [|c' s]; simpl.
  - split; [intros _; now exists "" | reflexivity].
  - split; [intros _; now exists (String c' s) | reflexivity].
  - split; [discriminate | intros [rest H]; discriminate].
  - destruct (ascii_dec c c') as [->|Hne].
    + rewrite IH. split; intros [rest H]; exists rest; congruence.
    + split; [discriminate | intros [rest H]; congruence].
Qed.

(** [str_in] is the substring relation. *)
Lemma str_in_spec (sub s : string) :
  str_in sub s = true <-> exists before after, s = before ++ sub ++ after.
Proof.
  induction s as [|c s IH]; cbn [str_in].
  - rewrite orb_false_r, prefix_spec. split.
    + intros [rest H]. now exists "", rest.
    + intros [before [after H]]. destruct before; simpl in H.
      * now exists after.
      * discriminate.
  - rewrite orb_true_iff, prefix_spec, IH. split.
    + intros [[rest H] | [before [after H]]].
      * now exists "", rest.
      * exists (String c before), after. simpl. now rewrite H.
    + intros [before [after H]]. destruct before as [|c' before]; simpl in H.
      * left. now exists after.
      * right. exists before, after. congruence.
Qed.

Lemma lower_char_idempotent (c : ascii) :
  lower_char (lower_char c) = lower_char c.
Proof. destruct c as [[] [] [] [] [] [] [] []]; reflexivity. Qed.

Lemma lower_idempotent (s : string) : lower (lower s) = lower s.
Proof.
  induction s as [|c s IH]; simpl; [reflexivity|].
  now rewrite lower_char_idempotent, IH.
Qed.

(** [ci_in] does not see the case of either string. *)
Lemma ci_in_ignores_case (sub s : string) :
  ci_in (lower sub) s = ci_in sub s /\ ci_in sub (lower s) = ci_in sub s.
Proof. unfold ci_in. now rewrite !lower_idempotent. Qed.

(** [ci_in]: the lowered phrase is a substring of the lowered text. *)
Lemma ci_in_spec (sub s : string) :
  ci_in sub s = true <->
  exists before after, lower s = before ++ lower sub ++ after.
Proof. apply str_in_spec. Qed.

Lemma matches_seq_inv (r1 r2 : regex) (w : string) :
  matches (Seq r1 r2) w ->
  exists s1 s2, w = s1 ++ s2 /\ matches r1 s1 /\ matches r2 s2.
Proof. intros H; inversion H; subst. now exists s1, s2. Qed.

Lemma matches_alt_inv (r1 r2 : regex) (w : string) :
  matches (Alt r1 r2) w -> matches r1 w \/ matches r2 w.
Proof. intros H; inversion H; subst; [now left | now right]. Qed.

Lemma matches_class_inv (p : ascii -> bool) (w : string) :
  matches (Class p) w -> exists c, w = String c "" /\ p c = true.
Proof. intros H; inversion H; subst. now exists c. Qed.

Lemma nullable_spec (r : regex) : nullable r = true <-> matches r "".
Proof.
  induction r as [| |p|r1 IH1 r2 IH2|r1 IH1 r2 IH2|r IH]; simpl.
  - split; [discriminate | intros H; inversion H].
  - split; [intros _; constructor | reflexivity].
  - split; [discriminate | intros H; inversion H].
  - rewrite andb_true_iff, IH1, IH2. split.
    + intros [H1 H2]. exact (MSeq _ _ "" "" H1 H2).
    + intros H. apply matches_seq_inv in H as [s1 [s2 [E [H1 H2]]]].
      destruct s1; [|discriminate]. simpl in E. subst. now split.
  - rewrite orb_true_iff, IH1, IH2. split.
    + intros [H|H]; [now apply MAltL | now apply MAltR].
    + apply matches_alt_inv.
  - split; [intros _; constructor | reflexivity].
Qed.

(** A nonempty word of [Star r] starts with a nonempty word of [r]. *)
Lemma star_cons (r : regex) (c : ascii) (s : string) :
  matches (Star r) (String c s) ->
  exists s1 s2, s = s1 ++ s2 /\ matches r (String c s1) /\ matches (Star r) s2.
Proof.
  intros H. remember (Star r) as r' eqn:Er. remember (String c s) as w eqn:Ew.
  revert s Ew. induction H as [| | | | | |r0 s1 s2 H1 _ H2 IH2];
    intros tl Ew; try discriminate.
  injection Er as ->. destruct s1 as [|c1 s1]; simpl in Ew.
  - now apply IH2.
  - injection Ew as -> <-. now exists s1, s2.
Qed.

Lemma deriv_spec (c : ascii) (r : regex) (s : string) :
  matches (deriv c r) s <-> matches r (String c s).
Proof.
  revert s; induction r as [| |p|r1 IH1 r2 IH2|r1 IH1 r2 IH2|r IH];
    intros s; simpl.
  - split; intros H; inversion H.
  - split; intros H; inversion H.
  - destruct (p c) eqn:Hp; split; intros H.
    + inversion H; subst. now constructor.
    + apply matches_class_inv in H as [c' [E _]]. injection E as _ ->.
      constructor.
    + inversion H.
    + apply matches_class_inv in H as [c' [E Hc']]. congruence.
  - assert (Hseq : matches (Seq (deriv c r1) r2) s ->
                   matches (Seq r1 r2) (String c s)).
    { intros H. apply matches_seq_inv in H as [s1 [s2 [-> [H1 H2]]]].
      apply IH1 in H1. exact (MSeq _ _ _ _ H1 H2). }
    assert (Hinv : matches (Seq r1 r2) (String c s) ->
                   matches (Seq (deriv c r1) r2) s \/
                   (matches r1 "" /\ matches (deriv c r2) s)).
    { intros H. apply matches_seq_inv in H as [s1 [s2 [E [H1 H2]]]].
      destruct s1 as [|c1 s1]; simpl in E.
      - right. subst s2. split; [assumption | now apply IH2].
      - injection E as <- ->. left. apply MSeq; [now apply IH1 | assumption]. }
    destruct (nullable r1) eqn:Hn; split.
    + intros H. apply matches_alt_inv in H as [H|H]; [now apply Hseq|].
      apply nullable_spec in Hn. apply (MSeq _ _ "" _ Hn). now apply IH2.
    + intros H. destruct (Hinv H) as [H'|[_ H']];
        [now apply MAltL | now apply MAltR].
    + exact Hseq.
    + intros H. destruct (Hinv H) as [H'|[H' _]]; [assumption|].
      apply nullable_spec in H'. congruence.
  - split; intros H; apply matches_alt_inv in H as [H|H].
    + apply MAltL. now apply IH1.
    + apply MAltR. now apply IH2.
    + apply MAltL. now apply IH1.
    + apply MAltR. now apply IH2.
  - split.
    + intros H. apply matches_seq_inv in H as [s1 [s2 [-> [H1 H2]]]].
      apply IH in H1. exact (MStarApp _ _ _ H1 H2).
    + intros H. apply star_cons in H as [s1 [s2 [-> [H1 H2]]]].
      apply MSeq; [now apply IH | assumption].
Qed.

(** [re_match]: some prefix of the string is a word of the expression. *)
Lemma re_match_spec (r : regex) (s : string) :
  re_match r s = true <-> exists w rest, s = w ++ rest /\ matches r w.
Proof.
  revert r; induction s as [|c s IH]; intros r; simpl.
  - rewrite orb_false_r, nullable_spec. split.
    + intros H. now exists "", "".
    + intros [w [rest [E H]]]. destruct w; [assumption | discriminate].
  - rewrite orb_true_iff, nullable_spec, IH. split.
    + intros [H | [w [rest [-> H]]]].
      * now exists "", (String c s).
      * exists (String c w), rest. split; [reflexivity | now apply deriv_spec].
    + intros [w [rest [E H]]]. destruct w as [|c' w]; simpl in E.
      * now left.
      * injection E as <- ->. right. exists w, rest.
        split; [reflexivity | now apply deriv_spec].
Qed.

Lemma matches_seq (r1 r2 : regex) (w : string) :
  matches (Seq r1 r2) w <->
  exists s1 s2, w = s1 ++ s2 /\ matches r1 s1 /\ matches r2 s2.
Proof.
  split; [apply matches_seq_inv|].
  intros [s1 [s2 [-> [H1 H2]]]]. now apply MSeq.
Qed.

Lemma matches_chr (c : ascii) (w : string) :
  matches (Chr c) w <-> w = String c "".
Proof.
  unfold Chr. split.
  - intros H. apply matches_class_inv in H as [c' [-> Hc]].
    apply Ascii.eqb_eq in Hc. now subst.
  - intros ->. constructor. apply Ascii.eqb_refl.
Qed.

Lemma matches_lit (s w : string) : matches (Lit s) w <-> w = s.
Proof.
  revert w; induction s as [|c s IH]; intros w; simpl.
  - split; [intros H; now inversion H | intros ->; constructor].
  - rewrite matches_seq. split.
    + intros [s1 [s2 [-> [H1 H2]]]]. apply matches_chr in H1. apply IH in H2.
      now subst.
    + intros ->. exists (String c ""), s. split; [reflexivity|].
      split; [now apply matches_chr | now apply IH].
Qed.

Lemma matches_star_class (p : ascii -> bool) (w : string) :
  matches (Star (Class p)) w <-> all_chars p w = true.
Proof.
  split.
  - intros H. remember (Star (Class p)) as r eqn:Er.
    induction H as [| | | | | |r0 s1 s2 H1 _ H2 IH2]; try discriminate.
    + reflexivity.
    + injection Er as ->. apply matches_class_inv in H1 as [c [-> Hc]].
      simpl. rewrite Hc. now apply IH2.
  - induction w as [|c w IH]; simpl.
    + intros _. constructor.
    + rewrite andb_true_iff. intros [Hc Hw].
      apply (MStarApp _ (String c "") w); [now constructor | now apply IH].
Qed.

Lemma matches_plus_class (p : ascii -> bool) (w : string) :
  matches (Plus (Class p)) w <-> w <> "" /\ all_chars p w = true.
Proof.
  unfold Plus. rewrite matches_seq. split.
  - intros [s1 [s2 [-> [H1 H2]]]]. apply matches_class_inv in H1 as [c [-> Hc]].
    apply matches_star_class in H2. simpl. rewrite Hc, H2.
    split; [discriminate | reflexivity].
  - intros [Hne Hall]. destruct w as [|c w]; [congruence|]. simpl in Hall.
    apply andb_true_iff in Hall as [Hc Hw].
    exists (String c ""), w. split; [reflexivity|].
    split; [now constructor | now apply matches_star_class].
Qed.

(** The words of the pattern are the well-formed policy numbers. *)
Lemma policy_number_pattern_spec (w : string) :
  matches policy_number_pattern w <-> well_formed_policy_number w.
Proof.
  unfold policy_number_pattern, well_formed_policy_number, digit, Range.
  rewrite matches_seq. split.
  - intros [s1 [s2 [-> [H1 H2]]]]. apply matches_lit in H1 as ->.
    apply matches_seq in H2 as [letters [s3 [-> [Hl H3]]]].
    apply matches_plus_class in Hl as [Hl1 Hl2].
    apply matches_seq in H3 as [s4 [digits [-> [H4 Hd]]]].
    apply matches_chr in H4 as ->.
    apply matches_plus_class in Hd as [Hd1 Hd2].
    now exists letters, digits.
  - intros [letters [digits [-> [Hl1 [Hl2 [Hd1 Hd2]]]]]].
    exists "PN-", (letters ++ "-" ++ digits). split; [reflexivity|].
    split; [now apply matches_lit|].
    apply matches_seq. exists letters, ("-" ++ digits).
    split; [reflexivity|]. split; [now apply matches_plus_class|].
    apply matches_seq. exists "-", digits. split; [reflexivity|].
    split; [now apply matches_chr | now apply matches_plus_class].
Qed.

(** The format check accepts exactly the strings that start with a
    well-formed policy number. *)
Lemma policy_number_format_spec (s : string) :
  re_match policy_number_pattern s = true <->
  exists w rest, s = w ++ rest /\ well_formed_policy_number w.
Proof.
  rewrite re_match_spec. split; intros [w [rest [E H]]]; exists w, rest;
    (split; [assumption | now apply policy_number_pattern_spec]).
Qed.

(** ** The routing engine *)

Lemma assoc_dict_set_eq (k : string) (v : pyval) (d : list (string * pyval)) :
  assoc k (dict_set k v d) = Some v.
Proof.
  induction d as [|[k' v'] d IH]; simpl.
  - now rewrite String.eqb_refl.
  - destruct (String.eqb k k') eqn:E; simpl.
    + now rewrite String.eqb_refl.
    + now rewrite E.
Qed.

Lemma assoc_dict_set_ne (k k' : string) (v : pyval) (d : list (string * pyval)) :
  k <> k' -> assoc k' (dict_set k v d) = assoc k' d.
Proof.
  intros Hne. induction d as [|[k0 v0] d IH]; simpl.
  - destruct (String.eqb k' k) eqn:E; [|reflexivity].
    apply String.eqb_eq in E. congruence.
  - destruct (String.eqb k k0) eqn:E; simpl.
    + apply String.eqb_eq in E. subst k0.
      destruct (String.eqb k' k) eqn:E'; [|reflexivity].
      apply String.eqb_eq in E'. congruence.
    + now rewrite IH.
Qed.

Lemma assoc_dict_del_eq (k : string) (d : list (string * pyval)) :
  assoc k (dict_del k d) = None.
Proof.
  induction d as [|[k' v'] d IH]; simpl; [reflexivity|].
  destruct (String.eqb k k') eqn:E; simpl; [assumption | now rewrite E].
Qed.

Lemma assoc_dict_del_ne (k k' : string) (d : list (string * pyval)) :
  k <> k' -> assoc k' (dict_del k d) = assoc k' d.
Proof.
  intros Hne. induction d as [|[k0 v0] d IH]; simpl; [reflexivity|].
  destruct (String.eqb k k0) eqn:E; simpl.
  - apply String.eqb_eq in E. subst k0. rewrite IH.
    destruct (String.eqb k' k) eqn:E'; [|reflexivity].
    apply String.eqb_eq in E'. congruence.
  - now rewrite IH.
Qed.

Lemma py_order_numbers (op : ordop) (a b : pyval) :
  is_number a = true -> is_number b = true ->
  exists r, py_order op a b = Ok r.
Proof.
  destruct a, b; simpl; try discriminate; intros _ _; eexists; reflexivity.
Qed.

Lemma get_number_assoc (d : list (string * pyval)) (k : string) :
  is_number (get d k PNone) = true -> assoc k d = Some (get d k PNone).
Proof.
  unfold get. destruct (assoc k d); [reflexivity | discriminate].
Qed.

Section RouterLemmas.

Variable CONFIDENCE_THRESHOLD : pyval.
Variable ROUTING_RULES : pyval.

Lemma value_rule_total (d : list (string * pyval)) (op : ordop) (key : string)
  (threshold : pyval) :
  get d "value" PNone = PNone \/ is_number (get d "value" PNone) = true ->
  py_getitem ROUTING_RULES key = Ok threshold ->
  is_number threshold = true ->
  exists b, value_rule ROUTING_RULES (PDict d) d op key = Ok b.
Proof.
  intros Hv Hk Hn. unfold value_rule.
  destruct Hv as [Hv|Hv].
  - rewrite Hv. simpl. now exists false.
  - destruct (truthy (get d "value" PNone)); [|now exists false].
    simpl. rewrite (get_number_assoc _ _ Hv). simpl. rewrite Hk. simpl.
    now apply py_order_numbers.
Qed.

Lemma conditions_total (d : list (string * pyval)) :
  numeric_config CONFIDENCE_THRESHOLD ROUTING_RULES -> claim_record d ->
  forall r, exists b,
    condition CONFIDENCE_THRESHOLD ROUTING_RULES r d = Ok b.
Proof.
  intros [Hct [high [stp [Hh [Hhn [Hs Hsn]]]]]] [Hc Hv] r.
  destruct r; simpl.
  - now apply py_order_numbers.
  - eexists; reflexivity.
  - destruct (py_eq _ _); [now exists true|].
    now apply value_rule_total with (threshold := high).
  - now apply value_rule_total with (threshold := stp).
  - now exists true.
Qed.

End RouterLemmas.

Section RouterProperties.

Variable exn_str : exn -> string.
Variable float_repr : float -> string.
Variable repr : pyval -> result string.
Variable CONFIDENCE_THRESHOLD : pyval.
Variable ROUTING_RULES : pyval.

Local Abbreviation route :=
  (intelligent_route exn_str float_repr repr CONFIDENCE_THRESHOLD ROUTING_RULES).
Local Abbreviation confidence_of d := (get d "confidence" (PFloat 0)).
Local Abbreviation compliant d := (truthy (get d "is_compliant" (PBool false))).
Local Abbreviation high_priority d := (py_eq (get d "priority" PNone) (PStr "High")).

(** The decision of the router is that of the first rule whose test
    holds. *)
Lemma route_first_match (d : list (string * pyval)) (b1 b3 b4 : bool) :
  textual_reason d ->
  py_lt (confidence_of d) CONFIDENCE_THRESHOLD = Ok b1 ->
  condition CONFIDENCE_THRESHOLD ROUTING_RULES SeniorAdjuster d = Ok b3 ->
  condition CONFIDENCE_THRESHOLD ROUTING_RULES StraightThrough d = Ok b4 ->
  decision_of (route (PDict d)) =
  Some (rule_decision
          (if b1 then LowConfidence
           else if negb (compliant d) then NonCompliant
           else if b3 then SeniorAdjuster
           else if b4 then StraightThrough
           else GeneralQueue)).
Proof.
  intros [reason Hreason] H1 H3 H4. unfold intelligent_route. simpl in H3, H4.
  cbn [try_except bind]. rewrite H1. cbn [bind].
  destruct b1.
  - destruct (format_2f (confidence_of d)); reflexivity.
  - destruct (compliant d); cbn [negb]; [|rewrite Hreason; reflexivity].
    rewrite H3. cbn [bind]. destruct b3; [reflexivity|].
    rewrite H4. cbn [bind]. destruct b4; reflexivity.
Qed.

(** Whenever the confidence is below the threshold the decision is
    "Flag for Manual Review", on every dictionary. *)
Lemma low_confidence_is_flagged (d : list (string * pyval)) :
  py_lt (confidence_of d) CONFIDENCE_THRESHOLD = Ok true ->
  decision_of (route (PDict d)) = Some "Flag for Manual Review".
Proof.
  intros H. unfold intelligent_route. cbn [try_except bind].
  rewrite H. cbn [bind].
  destruct (format_2f (confidence_of d)); reflexivity.
Qed.

(** C2: on every claim record exactly one of the five rules fires, and
    the router returns the decision of that rule; whenever the confidence
    is below the threshold that rule is the first one, whatever the
    compliance, the priority and the value are.  In a claim record the
    confidence is a number, the value is None or a number and the
    compliance reason is a string. *)
Theorem exactly_one_rule_fires (d : list (string * pyval)) :
  numeric_config CONFIDENCE_THRESHOLD ROUTING_RULES ->
  claim_record d ->
  textual_reason d ->
  exists r,
    filter (fires CONFIDENCE_THRESHOLD ROUTING_RULES d) all_rules = [r] /\
    decision_of (route (PDict d)) = Some (rule_decision r) /\
    (py_lt (confidence_of d) CONFIDENCE_THRESHOLD = Ok true ->
     r = LowConfidence).
Proof.
  intros Hcfg Hrec Hreason.
  pose proof (conditions_total _ _ d Hcfg Hrec) as Htot.
  destruct (Htot LowConfidence) as [b1 H1].
  destruct (Htot SeniorAdjuster) as [b3 H3].
  destruct (Htot StraightThrough) as [b4 H4].
  rewrite (route_first_match d b1 b3 b4 Hreason H1 H3 H4).
  unfold all_rules, fires, earlier. cbn [filter forallb].
  rewrite H1, H3, H4. cbn [condition]. cbn [condition] in H1. rewrite H1.
  destruct b1, (compliant d), b3, b4; cbn; eexists;
    (split; [reflexivity | split; [reflexivity|]]);
    first [ intros _; reflexivity | intros [=] ].
Qed.

(** X28: a claim that passes rules 1 to 3 and whose value is present,
    is not zero and is at most the threshold of straight-through
    processing is routed there. *)
Theorem low_value_routes_to_stp (d : list (string * pyval))
  (value high stp : pyval) :
  py_lt (confidence_of d) CONFIDENCE_THRESHOLD = Ok false ->
  compliant d = true ->
  high_priority d = false ->
  assoc "value" d = Some value ->
  truthy value = true ->
  py_getitem ROUTING_RULES "high_value_threshold" = Ok high ->
  py_gt value high = Ok false ->
  py_getitem ROUTING_RULES "stp_threshold" = Ok stp ->
  py_le value stp = Ok true ->
  route (PDict d) =
  Ok (routing "Route to Straight-Through Processing (STP)"
        "Low-value, compliant claim").
Proof.
  intros Hc Hcomp Hp Hv Ht Hh Hgt Hs Hle.
  unfold intelligent_route, value_rule, get. cbn [try_except bind py_getitem].
  unfold get in Hc, Hcomp, Hp. rewrite Hc. cbn [bind]. rewrite Hcomp, Hp.
  cbn [negb]. rewrite Hv, Ht. cbn [bind]. rewrite Hh. cbn [bind].
  fold py_gt. rewrite Hgt. cbn [bind]. rewrite Hs. cbn [bind].
  fold py_le. rewrite Hle. reflexivity.
Qed.

(** C5: a claim without a value (the key is absent, or its value is
    None) that passes rules 1 to 3 goes to the general queue. *)
Theorem no_value_routes_to_general_queue (d : list (string * pyval)) :
  assoc "value" d = None \/ assoc "value" d = Some PNone ->
  py_lt (confidence_of d) CONFIDENCE_THRESHOLD = Ok false ->
  compliant d = true ->
  high_priority d = false ->
  route (PDict d) =
  Ok (routing "Route to General Claims Queue" "Standard claim").
Proof.
  intros Hv Hc Hcomp Hp.
  unfold intelligent_route, value_rule. cbn [try_except bind].
  rewrite Hc. cbn [bind]. rewrite Hcomp, Hp. cbn [negb].
  assert (Hget : get d "value" PNone = PNone).
  { unfold get. now destruct Hv as [-> | ->]. }
  rewrite Hget. reflexivity.
Qed.

(** The router reads the record through five keys only. *)
Lemma route_falsy_value_ext (d1 d2 : list (string * pyval)) :
  (forall k, k <> "value" -> assoc k d1 = assoc k d2) ->
  truthy (get d1 "value" PNone) = false ->
  truthy (get d2 "value" PNone) = false ->
  route (PDict d1) = route (PDict d2).
Proof.
  intros Hext H1 H2.
  unfold intelligent_route, value_rule. rewrite H1, H2. unfold get.
  rewrite !(Hext "confidence"), !(Hext "is_compliant"),
    !(Hext "compliance_reason"), !(Hext "priority") by discriminate.
  reflexivity.
Qed.

Lemma zero_is_falsy (v : pyval) :
  py_eq v (PFloat 0) = true -> truthy v = false.
Proof.
  destruct v as [|b|z|f|s|l|d]; simpl; try discriminate.
  - destruct b; [discriminate | reflexivity].
  - destruct z; [reflexivity | discriminate | discriminate].
  - unfold PrimFloat.zero. now intros ->.
Qed.

(** C9: a value equal to zero is routed as an absent value (a missing
    key, or None): same decision and same reason. *)
Theorem zero_value_routes_as_absent (d : list (string * pyval))
  (zero : pyval) :
  py_eq zero (PFloat 0) = true ->
  route (PDict (dict_set "value" zero d)) =
    route (PDict (dict_del "value" d)) /\
  route (PDict (dict_set "value" zero d)) =
    route (PDict (dict_set "value" PNone d)).
Proof.
  intros Hz. apply zero_is_falsy in Hz.
  split; apply route_falsy_value_ext.
  - intros k Hk. rewrite assoc_dict_set_ne, assoc_dict_del_ne; congruence.
  - unfold get. now rewrite assoc_dict_set_eq.
  - unfold get. now rewrite assoc_dict_del_eq.
  - intros k Hk. rewrite !assoc_dict_set_ne; congruence.
  - unfold get. now rewrite assoc_dict_set_eq.
  - unfold get. now rewrite assoc_dict_set_eq.
Qed.

Lemma above_zero (t : pyval) :
  py_gt t (PFloat 0) = Ok true -> py_lt (PFloat 0) t = Ok true.
Proof. destruct t; simpl; try discriminate; exact (fun H => H). Qed.

(** C10: a record without a confidence is routed as one of confidence
    0.0: when the threshold is above zero it is flagged for manual
    review, whatever its other fields are. *)
Theorem absent_confidence_is_flagged (d : list (string * pyval)) :
  assoc "confidence" d = None ->
  py_gt CONFIDENCE_THRESHOLD (PFloat 0) = Ok true ->
  route (PDict d) =
  Ok (routing "Flag for Manual Review"
        "Low classification confidence (0.00)").
Proof.
  intros Habs Hpos. apply above_zero in Hpos.
  unfold intelligent_route, get. cbn [try_except bind]. rewrite Habs.
  rewrite Hpos. reflexivity.
Qed.

End RouterProperties.

(** ** The compliance engine *)

Lemma append_empty_r (s : string) : s ++ "" = s.
Proof. induction s as [|c s IH]; simpl; [reflexivity | now rewrite IH]. Qed.

Lemma truthy_nonempty (s : string) : s <> "" -> truthy (PStr s) = true.
Proof. destruct s; [congruence | reflexivity]. Qed.

Lemma scan_exclusions_strings (exclusions : list string) (text : string) :
  scan_exclusions (map PStr exclusions) (PStr text) =
  Ok (option_map PStr (find (fun e => str_in e (lower text)) exclusions)).
Proof.
  induction exclusions as [|e rest IH]; simpl; [reflexivity|].
  destruct (str_in e (lower text)); [reflexivity | exact IH].
Qed.

Lemma find_ext_in {A : Type} (f g : A -> bool) (l : list A) :
  Forall (fun a => f a = g a) l -> find f l = find g l.
Proof.
  induction 1 as [|a l Ha _ IH]; simpl; [reflexivity|].
  rewrite Ha, IH. reflexivity.
Qed.

Section ComplianceProperties.

Variable exn_str : exn -> string.
Variable float_repr : float -> string.
Variable repr : pyval -> result string.

(** [str] returns on None, on a boolean, on a float and on a string. *)
Lemma str_returns_text (v : pyval) :
  match v with
  | PNone | PBool _ | PFloat _ | PStr _ => True
  | _ => False
  end ->
  str_returns float_repr repr v.
Proof.
  destruct v; intros []; eexists; reflexivity.
Qed.

(** [str] returns on every value that is empty or zero. *)
Lemma str_returns_falsy (v : pyval) :
  truthy v = false -> str_returns float_repr repr v.
Proof.
  destruct v as [|b|z|f|s|l|d]; cbn [truthy]; intros H;
    try (eexists; reflexivity).
  - apply negb_false_iff, Z.eqb_eq in H. subst z. eexists; reflexivity.
  - destruct l; [eexists; reflexivity | discriminate].
  - destruct d; [eexists; reflexivity | discriminate].
Qed.

(** Once the policy number is logged, the compliance engine returns a
    result for every input and every policy store. *)
Lemma check_policy_compliance_total
  (POLICY_DB policy_number claim_type claim_details : pyval) :
  str_returns float_repr repr policy_number ->
  exists is_compliant reason,
    check_policy_compliance exn_str float_repr repr POLICY_DB
      policy_number claim_type claim_details = Ok (is_compliant, reason).
Proof.
  intros [shown Hshown].
  unfold check_policy_compliance. rewrite Hshown. cbn [bind].
  unfold try_except.
  match goal with
  | |- context [match ?body with Ok _ => _ | Raise _ => _ end] =>
      destruct body as [[b r]|e]
  end; eexists; eexists; reflexivity.
Qed.

(** What [str] raises on the policy number leaves the compliance engine. *)
Lemma check_policy_compliance_raises
  (POLICY_DB policy_number claim_type claim_details : pyval) (e : exn) :
  py_str float_repr repr policy_number = Raise e ->
  check_policy_compliance exn_str float_repr repr POLICY_DB
    policy_number claim_type claim_details = Raise e.
Proof.
  intros H. unfold check_policy_compliance. now rewrite H.
Qed.

(** C3, when no field is missing: a policy number that is given and
    does not have the format PN-<letters>-<digits> is rejected with the
    format reason, which quotes it, whatever the policy store holds and
    whatever the claim type and the claim text are, as long as both are
    given.  A policy number in the format followed by further characters
    is left out. *)
Theorem malformed_policy_number_is_rejected
  (POLICY_DB claim_type claim_details : pyval) (policy_number : string) :
  policy_number <> "" ->
  truthy claim_type = true ->
  truthy claim_details = true ->
  ~ well_formed_policy_number policy_number ->
  ~ followed_by_text policy_number ->
  check_policy_compliance exn_str float_repr repr POLICY_DB
    (PStr policy_number) claim_type claim_details =
  Ok (false, "Invalid Policy Number format: " ++ policy_number).
Proof.
  intros Hne Hct Hcd Hmalformed Hleft_out.
  assert (Hm : re_match policy_number_pattern policy_number = false).
  { destruct (re_match policy_number_pattern policy_number) eqn:E;
      [|reflexivity].
    apply policy_number_format_spec in E as [number [rest [E Hwf]]].
    destruct rest as [|c rest].
    - rewrite append_empty_r in E. subst number. contradiction.
    - destruct Hleft_out. exists number, (String c rest).
      repeat split; [assumption | discriminate | assumption]. }
  unfold check_policy_compliance. cbn [py_str bind].
  rewrite (truthy_nonempty _ Hne), Hct, Hcd. cbn [negb orb].
  cbn [py_re_match bind try_except]. rewrite Hm. reflexivity.
Qed.

(** C4: the exclusions of the policy are scanned in their stored order,
    and the first one that occurs in the claim text, case ignored, rejects
    the claim with a reason that names it; with no such exclusion the
    claim is compliant.  The exclusions are lowercase phrases, as the
    policy store holds them. *)
Theorem first_matching_exclusion_rejects
  (db policy : list (string * pyval)) (coverage claim_type : pyval)
  (exclusions : list string) (policy_number claim_text : string) :
  re_match policy_number_pattern policy_number = true ->
  assoc policy_number db = Some (PDict policy) ->
  assoc "coverage" policy = Some coverage ->
  assoc "exclusions" policy = Some (PList (map PStr exclusions)) ->
  Forall (fun e => lower e = e) exclusions ->
  truthy claim_type = true ->
  py_in claim_type coverage = Ok true ->
  claim_text <> "" ->
  check_policy_compliance exn_str float_repr repr (PDict db)
    (PStr policy_number) claim_type (PStr claim_text) =
  Ok match find (fun e => ci_in e claim_text) exclusions with
     | Some e =>
         (false, "Claim rejected due to exclusion clause: '" ++ e ++ "'.")
     | None => (true, "Compliant")
     end.
Proof.
  intros Hm Hdb Hcov Hexc Hlow Hct Hin Htext.
  assert (Hpn : truthy (PStr policy_number) = true).
  { destruct policy_number; [discriminate Hm | reflexivity]. }
  assert (Hpol : truthy (PDict policy) = true).
  { destruct policy; [discriminate Hcov | reflexivity]. }
  unfold check_policy_compliance.
  rewrite Hpn, Hct, (truthy_nonempty _ Htext). cbn [negb orb].
  cbn [py_re_match bind]. rewrite Hm. cbn [negb py_get bind]. unfold get.
  rewrite Hdb. cbn [bind]. rewrite Hpol. cbn [negb py_getitem]. rewrite Hcov. cbn [bind].
  rewrite Hin. cbn [bind negb]. rewrite Hexc. cbn [bind py_iter].
  rewrite scan_exclusions_strings. cbn [bind try_except].
  rewrite (find_ext_in (fun e => ci_in e claim_text)
             (fun e => str_in e (lower claim_text))).
  - destruct (find _ exclusions); reflexivity.
  - revert Hlow. apply Forall_impl. intros e He. unfold ci_in. now rewrite He.
Qed.

End ComplianceProperties.

(** ** The classifier and the orchestrator *)

Lemma classify_claim_confidence (model : option sk_model) (claim_text : pyval) :
  exists c, snd (fst (classify_claim model claim_text)) = PFloat c.
Proof.
  unfold classify_claim.
  destruct model as [m|], claim_text; try (eexists; reflexivity).
  destruct (negb (truthy (PStr s))); [eexists; reflexivity|].
  destruct (predict m s); cbn [bind]; [|eexists; reflexivity].
  destruct (predict_proba_max m s); eexists; reflexivity.
Qed.

(** C8: without a claim type the confidence is 0.0; with a claim type the
    priority is "High" when one of the five keywords occurs in the text,
    case ignored, and "Medium" otherwise, whatever the model and its
    confidence are. *)
Theorem classification_contract (model : option sk_model)
  (claim_text claim_type confidence priority : pyval) :
  classify_claim model claim_text = (claim_type, confidence, priority) ->
  (claim_type = PNone -> confidence = PFloat 0) /\
  (claim_type <> PNone ->
   exists text,
     claim_text = PStr text /\
     priority =
       PStr (if existsb (fun kw => ci_in kw text)
                  ["major"; "fire"; "totaled"; "emergency"; "collision"]
             then "High" else "Medium") /\
     forall model' claim_type' confidence' priority',
       classify_claim model' claim_text =
         (claim_type', confidence', priority') ->
       claim_type' <> PNone -> priority' = priority).
Proof.
  assert (Hshape : forall m t ct c p,
             classify_claim m t = (ct, c, p) ->
             (ct = PNone /\ c = PFloat 0) \/
             (exists text, t = PStr text /\ ct <> PNone /\
                           p = PStr (priority_of text))).
  { intros m t ct c p. unfold classify_claim.
    destruct m as [m|], t;
      try (intros [= <- <- <-]; left; split; reflexivity).
    destruct (negb (truthy (PStr s)));
      [intros [= <- <- <-]; left; split; reflexivity|].
    destruct (predict m s); cbn [bind];
      [|intros [= <- <- <-]; left; split; reflexivity].
    destruct (predict_proba_max m s);
      [|intros [= <- <- <-]; left; split; reflexivity].
    intros [= <- <- <-]. right. exists s.
    split; [reflexivity | split; [discriminate | reflexivity]]. }
  intros H. destruct (Hshape _ _ _ _ _ H) as [[-> ->] | [text [-> [Hct ->]]]].
  - split; [reflexivity | congruence].
  - split; [congruence|]. intros _. exists text.
    split; [reflexivity | split; [reflexivity|]].
    intros m' ct' c' p' H' Hct'.
    destruct (Hshape _ _ _ _ _ H') as [[-> _] | [text' [E [_ ->]]]];
      [congruence | now injection E as <-].
Qed.

Section PipelineProperties.

Variable exn_str : exn -> string.
Variable float_repr : float -> string.
Variable repr : pyval -> result string.
Variable POLICY_DB : pyval.
Variable CONFIDENCE_THRESHOLD : pyval.
Variable ROUTING_RULES : pyval.
Variable process_document : string -> pyval * pyval.

Local Abbreviation route :=
  (intelligent_route exn_str float_repr repr CONFIDENCE_THRESHOLD ROUTING_RULES).
Local Abbreviation check :=
  (check_policy_compliance exn_str float_repr repr POLICY_DB).
Local Abbreviation run_pipeline :=
  (run exn_str float_repr repr POLICY_DB CONFIDENCE_THRESHOLD ROUTING_RULES
     process_document).

(** The routing engine returns a decision and a reason for every input. *)
Lemma intelligent_route_total (claim_data : pyval) :
  exists decision reason, route claim_data = Ok (routing decision reason).
Proof.
  unfold intelligent_route.
  destruct claim_data; cbn [try_except]; try (eexists; eexists; reflexivity).
  repeat match goal with
         | |- context [bind ?x _] => destruct x; cbn [bind try_except]
         | |- context [if ?b then _ else _] => destruct b; cbn [bind try_except]
         end;
    eexists; eexists; reflexivity.
Qed.

(** C6: when extraction yields no entities or no text, or classification
    yields no claim type, the run returns a record of a status and a
    reason only, and no later stage is invoked. *)
Theorem failed_stage_stops_the_run (self : ClaimsPipeline)
  (image_path : string) (entities text : pyval) (log : list stage) :
  process_document image_path = (entities, text) ->
  (truthy entities = false \/ truthy text = false ->
   run_pipeline self image_path log =
   (Ok (PDict
          [("status", PStr "Failed");
           ("reason",
            PStr "Could not process document. The image may be unreadable or blank.")]),
    (log ++ [Extracting])%list)) /\
  (truthy entities = true -> truthy text = true ->
   forall claim_type confidence priority,
     classify_claim (Some (classifier self)) text =
       (claim_type, confidence, priority) ->
     truthy claim_type = false ->
     run_pipeline self image_path log =
     (Ok (PDict
            [("status", PStr "Failed");
             ("reason", PStr "Could not classify the claim from the text.")]),
      ((log ++ [Extracting]) ++ [Classifying])%list)).
Proof.
  intros Hdoc. unfold run, m_try_except, mbind, invoke, ret. rewrite Hdoc.
  split.
  - intros [H | H]; rewrite H; cbn [negb orb]; [reflexivity|].
    rewrite orb_true_r. reflexivity.
  - intros He Ht ct c p Hcls Hct. rewrite He, Ht, Hcls. cbn [negb orb].
    rewrite Hct. reflexivity.
Qed.


End PipelineProperties.

(** ** The scenarios of the specification and the instances of the
       theorems *)

Example scenario_A :
  classify_claim (Some sample_model) (PStr "major collision damage") =
    (PStr "collision", PFloat 0.9, PStr "High") /\
  check_policy_compliance sample_render sample_render sample_repr sample_policy_db
    (PStr "PN-AUTO-1001") (PStr "collision") (PStr "major collision damage") =
    Ok (true, "Compliant") /\
  intelligent_route sample_render sample_render sample_repr (PFloat 0.6) sample_rules
    (PDict (sample_claim 0.9 "High" (PFloat 12000) true)) =
    Ok (routing "Route to Senior Adjuster" "High priority or high value claim").
Proof. repeat split. Qed.

Example scenario_B :
  intelligent_route sample_render sample_render sample_repr (PFloat 0.6) sample_rules
    (PDict (sample_claim 0.4 "High" (PFloat 12000) true)) =
    Ok (routing "Flag for Manual Review" "Low classification confidence (0.40)").
Proof. reflexivity. Qed.

Example scenario_C :
  check_policy_compliance sample_render sample_render sample_repr sample_policy_db
    (PStr "PN-AUTO-1001") (PStr "theft") (PStr "my car was stolen") =
    Ok (false, "Claim type 'theft' is not covered.") /\
  intelligent_route sample_render sample_render sample_repr (PFloat 0.6) sample_rules
    (PDict [("confidence", PFloat 0.9); ("priority", PStr "Medium");
            ("value", PNone); ("is_compliant", PBool false);
            ("compliance_reason", PStr "Claim type 'theft' is not covered.")]) =
    Ok (routing "Auto-Deny" "Non-compliant: Claim type 'theft' is not covered.").
Proof. split; reflexivity. Qed.

Example scenario_D :
  intelligent_route sample_render sample_render sample_repr (PFloat 0.6) sample_rules
    (PDict (sample_claim 0.9 "Medium" (PFloat 500) true)) =
    Ok (routing "Route to Straight-Through Processing (STP)"
          "Low-value, compliant claim").
Proof. reflexivity. Qed.

Example scenario_E :
  intelligent_route sample_render sample_render sample_repr (PFloat 0.6) sample_rules
    (PDict (sample_claim 0.9 "Medium" PNone true)) =
    Ok (routing "Route to General Claims Queue" "Standard claim").
Proof. reflexivity. Qed.

(** The format check looks at the start of the policy number only. *)
Example policy_number_with_trailing_text :
  re_match policy_number_pattern "PN-AUTO-1001xyz" = true /\
  check_policy_compliance sample_render sample_render sample_repr sample_policy_db
    (PStr "PN-AUTO-1001xyz") (PStr "collision") (PStr "collision damage") =
    Ok (false, "Policy PN-AUTO-1001xyz not found").
Proof. split; reflexivity. Qed.

(** The claim text is lowered and the exclusion is not: an exclusion
    stored with a capital letter matches no claim text. *)
Example exclusion_with_a_capital :
  check_policy_compliance sample_render sample_render sample_repr
    (PDict [("PN-HOME-7",
             PDict [("coverage", PList [PStr "fire"]);
                    ("exclusions", PList [PStr "War"])])])
    (PStr "PN-HOME-7") (PStr "fire") (PStr "Fire during the War") =
    Ok (true, "Compliant").
Proof. reflexivity. Qed.

(** A claim record that is not a dictionary gets a decision of its own. *)
Example route_of_a_list :
  intelligent_route sample_render sample_render sample_repr (PFloat 0.6) sample_rules (PList []) =
    Ok (routing "Flag for Review" "Invalid claim data format.").
Proof. reflexivity. Qed.

(** Where [str] raises on the compliance reason, the f-string of the
    second rule raises inside the [try] and the claim is flagged. *)
Example reason_that_cannot_be_shown :
  intelligent_route sample_render sample_render sample_repr (PFloat 0.6)
    sample_rules
    (PDict [("confidence", PFloat 0.9); ("is_compliant", PBool false);
            ("compliance_reason", deeply_nested)]) =
    Ok (routing "Flag for Manual Review" "Routing error: ...").
Proof. vm_compute. reflexivity. Qed.

(** Where [str] raises on the policy number, the compliance engine
    raises, and the run that called it fails after three stages. *)
Example policy_number_that_cannot_be_shown :
  check_policy_compliance sample_render sample_render sample_repr
    sample_policy_db deeply_nested (PStr "collision") (PStr "collision damage") =
    Raise RecursionError /\
  check_policy_compliance sample_render sample_render sample_repr
    sample_policy_db (PInt (10 ^ 4300)) (PStr "collision")
    (PStr "collision damage") = Raise (ValueError "str" [TInt]) /\
  run sample_render sample_render sample_repr sample_policy_db (PFloat 0.6)
    sample_rules nested_document sample_pipeline "claim.png" [] =
    (Ok (failed "An unexpected error occurred: ..."),
     [Extracting; Classifying; CheckingCompliance]).
Proof. split; [|split]; vm_compute; reflexivity. Qed.

(** C1: a claim value of zero, present and at most the threshold of
    straight-through processing, on a claim that passes rules 1 to 3: the
    router sends it to the general queue.  A scanned form whose claim
    amount reads $0 gives such a claim. *)
Lemma zero_value_goes_to_general_queue :
  py_lt (get (sample_claim 0.9 "Medium" (PFloat 0) true) "confidence" (PFloat 0))
    (PFloat 0.6) = Ok false /\
  truthy (get (sample_claim 0.9 "Medium" (PFloat 0) true) "is_compliant"
            (PBool false)) = true /\
  py_eq (get (sample_claim 0.9 "Medium" (PFloat 0) true) "priority" PNone)
    (PStr "High") = false /\
  assoc "value" (sample_claim 0.9 "Medium" (PFloat 0) true) = Some (PFloat 0) /\
  py_getitem sample_rules "high_value_threshold" = Ok (PInt 10000) /\
  py_gt (PFloat 0) (PInt 10000) = Ok false /\
  py_getitem sample_rules "stp_threshold" = Ok (PInt 1000) /\
  py_le (PFloat 0) (PInt 1000) = Ok true /\
  intelligent_route sample_render sample_render sample_repr (PFloat 0.6) sample_rules
    (PDict (sample_claim 0.9 "Medium" (PFloat 0) true)) =
    Ok (routing "Route to General Claims Queue" "Standard claim") /\
  run sample_render sample_render sample_repr sample_policy_db (PFloat 0.6)
    sample_rules (process_document zero_amount_scan sample_nlp)
    sample_pipeline "claim.png" [] =
    (Ok (success_record
           (PDict [("PERSON", PList [PStr "Jane Roe"]);
                   ("DATE", PList [PStr "5 May"]);
                   ("POLICY_NO", PStr "PN-AUTO-1001");
                   ("CLAIM_VALUE", PFloat 0)])
           (PStr "collision") (PStr "Medium") "0.90" true "Compliant"
           (routing "Route to General Claims Queue" "Standard claim")),
     [Extracting; Classifying; CheckingCompliance; Routing]).
Proof. repeat split. Qed.

Lemma low_value_routes_to_stp_witness :
  intelligent_route sample_render sample_render sample_repr (PFloat 0.6) sample_rules
    (PDict (sample_claim 0.9 "Medium" (PFloat 500) true)) =
    Ok (routing "Route to Straight-Through Processing (STP)"
          "Low-value, compliant claim").
Proof.
  apply (low_value_routes_to_stp sample_render sample_render sample_repr (PFloat 0.6)
           sample_rules (sample_claim 0.9 "Medium" (PFloat 500) true)
           (PFloat 500) (PInt 10000) (PInt 1000)); reflexivity.
Defined.

Lemma exactly_one_rule_fires_witness :
  numeric_config (PFloat 0.6) sample_rules /\
  claim_record (sample_claim 0.4 "High" (PFloat 12000) true) /\
  textual_reason (sample_claim 0.4 "High" (PFloat 12000) true) /\
  exists r,
    filter (fires (PFloat 0.6) sample_rules
              (sample_claim 0.4 "High" (PFloat 12000) true)) all_rules = [r] /\
    decision_of
      (intelligent_route sample_render sample_render sample_repr (PFloat 0.6) sample_rules
         (PDict (sample_claim 0.4 "High" (PFloat 12000) true))) =
      Some (rule_decision r) /\
    (py_lt (get (sample_claim 0.4 "High" (PFloat 12000) true)
              "confidence" (PFloat 0)) (PFloat 0.6) = Ok true ->
     r = LowConfidence).
Proof.
  assert (Hcfg : numeric_config (PFloat 0.6) sample_rules).
  { split; [reflexivity|]. exists (PInt 10000), (PInt 1000). repeat split. }
  assert (Hrec : claim_record (sample_claim 0.4 "High" (PFloat 12000) true)).
  { split; [reflexivity | right; reflexivity]. }
  assert (Hreason :
            textual_reason (sample_claim 0.4 "High" (PFloat 12000) true)).
  { now exists "Compliant". }
  split; [exact Hcfg | split; [exact Hrec | split; [exact Hreason|]]].
  exact (exactly_one_rule_fires sample_render sample_render sample_repr
           (PFloat 0.6) sample_rules
           (sample_claim 0.4 "High" (PFloat 12000) true) Hcfg Hrec Hreason).
Defined.

Lemma no_value_routes_to_general_queue_witness :
  intelligent_route sample_render sample_render sample_repr (PFloat 0.6) sample_rules
    (PDict (sample_claim 0.9 "Medium" PNone true)) =
    Ok (routing "Route to General Claims Queue" "Standard claim").
Proof.
  apply (no_value_routes_to_general_queue sample_render sample_render sample_repr (PFloat 0.6)
           sample_rules (sample_claim 0.9 "Medium" PNone true));
    [right; reflexivity | reflexivity | reflexivity | reflexivity].
Defined.

Lemma zero_value_routes_as_absent_witness :
  py_eq (PInt 0) (PFloat 0) = true /\
  intelligent_route sample_render sample_render sample_repr (PFloat 0.6) sample_rules
    (PDict (dict_set "value" (PInt 0) (sample_claim 0.9 "Medium" PNone true))) =
  intelligent_route sample_render sample_render sample_repr (PFloat 0.6) sample_rules
    (PDict (dict_del "value" (sample_claim 0.9 "Medium" PNone true))).
Proof.
  split; [reflexivity|].
  apply (zero_value_routes_as_absent sample_render sample_render sample_repr (PFloat 0.6)
           sample_rules (sample_claim 0.9 "Medium" PNone true) (PInt 0)).
  reflexivity.
Defined.

Lemma absent_confidence_is_flagged_witness :
  intelligent_route sample_render sample_render sample_repr (PFloat 0.6) sample_rules
    (PDict [("priority", PStr "High"); ("value", PFloat 12000);
            ("is_compliant", PBool true)]) =
    Ok (routing "Flag for Manual Review" "Low classification confidence (0.00)").
Proof.
  apply (absent_confidence_is_flagged sample_render sample_render sample_repr (PFloat 0.6)
           sample_rules); reflexivity.
Defined.

(** A policy number that does not match, with an empty claim type: the
    reason is the one of the missing field, and it does not quote the
    policy number.  The empty policy number does not match either, and
    its reason is the same one. *)
Lemma missing_field_precedes_format_check :
  re_match policy_number_pattern "BAD-7" = false /\
  check_policy_compliance sample_render sample_render sample_repr sample_policy_db
    (PStr "BAD-7") (PStr "") (PStr "collision damage") =
    Ok (false,
        "Invalid Data (Missing Policy No., Claim Type, or Claim Details)") /\
  str_in "BAD-7"
    "Invalid Data (Missing Policy No., Claim Type, or Claim Details)" = false /\
  re_match policy_number_pattern "" = false /\
  check_policy_compliance sample_render sample_render sample_repr sample_policy_db
    (PStr "") (PStr "collision") (PStr "collision damage") =
    Ok (false,
        "Invalid Data (Missing Policy No., Claim Type, or Claim Details)").
Proof. repeat split. Qed.

Lemma malformed_policy_number_is_rejected_witness :
  check_policy_compliance sample_render sample_render sample_repr sample_policy_db
    (PStr "BAD-7") (PStr "collision") (PStr "collision damage") =
    Ok (false, "Invalid Policy Number format: BAD-7").
Proof.
  apply (malformed_policy_number_is_rejected sample_render sample_render sample_repr
           sample_policy_db (PStr "collision") (PStr "collision damage")
           "BAD-7");
    [discriminate | reflexivity | reflexivity | |].
  - intros Hwf.
    assert (H : re_match policy_number_pattern "BAD-7" = true)
      by (apply policy_number_format_spec; now exists "BAD-7", "").
    discriminate H.
  - intros [number [rest [E [_ Hwf]]]].
    assert (H : re_match policy_number_pattern "BAD-7" = true)
      by (apply policy_number_format_spec; now exists number, rest).
    discriminate H.
Defined.

(** The exclusion "war" rejects a claim about a warranty issue. *)
Lemma first_matching_exclusion_rejects_witness :
  check_policy_compliance sample_render sample_render sample_repr sample_policy_db
    (PStr "PN-AUTO-1001") (PStr "collision")
    (PStr "Collision while racing; WARRANTY ISSUE with the repair") =
    Ok (false, "Claim rejected due to exclusion clause: 'war'.").
Proof.
  apply (first_matching_exclusion_rejects sample_render sample_render sample_repr
           [("PN-AUTO-1001",
             PDict [("coverage", PList [PStr "collision"]);
                    ("exclusions", PList [PStr "war"; PStr "racing"])])]
           [("coverage", PList [PStr "collision"]);
            ("exclusions", PList [PStr "war"; PStr "racing"])]
           (PList [PStr "collision"]) (PStr "collision")
           ["war"; "racing"] "PN-AUTO-1001"
           "Collision while racing; WARRANTY ISSUE with the repair");
    try reflexivity.
  - repeat constructor.
  - discriminate.
Defined.

Lemma classification_contract_witness :
  classify_claim (Some sample_model) (PStr "Kitchen FIRE, minor damage") =
    (PStr "collision", PFloat 0.9, PStr "High") /\
  exists text,
    PStr "Kitchen FIRE, minor damage" = PStr text /\
    PStr "High" =
      PStr (if existsb (fun kw => ci_in kw text)
                 ["major"; "fire"; "totaled"; "emergency"; "collision"]
            then "High" else "Medium") /\
    forall model' claim_type' confidence' priority',
      classify_claim model' (PStr "Kitchen FIRE, minor damage") =
        (claim_type', confidence', priority') ->
      claim_type' <> PNone -> priority' = PStr "High".
Proof.
  split; [reflexivity|].
  apply (classification_contract (Some sample_model)
           (PStr "Kitchen FIRE, minor damage")
           (PStr "collision") (PFloat 0.9) (PStr "High"));
    [reflexivity | discriminate].
Defined.

Lemma failed_stage_stops_the_run_witness :
  run sample_render sample_render sample_repr sample_policy_db (PFloat 0.6) sample_rules
    sample_document sample_pipeline "blank.png" [] =
  (Ok (PDict
         [("status", PStr "Failed");
          ("reason",
           PStr "Could not process document. The image may be unreadable or blank.")]),
   [Extracting]) /\
  run sample_render sample_render sample_repr sample_policy_db (PFloat 0.6) sample_rules
    sample_document {| classifier := unfitted_model |} "claim.png" [] =
  (Ok (PDict
         [("status", PStr "Failed");
          ("reason", PStr "Could not classify the claim from the text.")]),
   [Extracting; Classifying]).
Proof.
  split.
  - apply (proj1 (failed_stage_stops_the_run sample_render sample_render sample_repr
                    sample_policy_db (PFloat 0.6) sample_rules sample_document
                    sample_pipeline "blank.png" PNone PNone [] eq_refl)).
    left; reflexivity.
  - apply (proj2 (failed_stage_stops_the_run sample_render sample_render sample_repr
                    sample_policy_db (PFloat 0.6) sample_rules sample_document
                    {| classifier := unfitted_model |} "claim.png"
                    _ _ [] eq_refl) eq_refl eq_refl PNone (PFloat 0) PNone);
      reflexivity.
Defined.


Example sample_run :
  run sample_render sample_render sample_repr sample_policy_db (PFloat 0.6) sample_rules
    sample_document sample_pipeline "claim.png" [] =
  (Ok (PDict
         [("status", PStr "Success");
          ("extracted_data", sample_entities);
          ("classification",
           PDict [("type", PStr "collision"); ("priority", PStr "High");
                  ("confidence", PStr "0.90")]);
          ("compliance",
           PDict [("compliant", PBool true); ("details", PStr "Compliant")]);
          ("final_routing",
           routing "Route to Senior Adjuster"
             "High priority or high value claim")]),
   [Extracting; Classifying; CheckingCompliance; Routing]).
Proof. reflexivity. Qed.

(** ** Further properties of the routing engine *)

Section RouterFurther.

Variable exn_str : exn -> string.
Variable float_repr : float -> string.
Variable repr : pyval -> result string.
Variable CONFIDENCE_THRESHOLD : pyval.
Variable ROUTING_RULES : pyval.

Local Abbreviation route :=
  (intelligent_route exn_str float_repr repr CONFIDENCE_THRESHOLD ROUTING_RULES).
Local Abbreviation confidence_of d := (get d "confidence" (PFloat 0)).
Local Abbreviation compliant d := (truthy (get d "is_compliant" (PBool false))).
Local Abbreviation high_priority d := (py_eq (get d "priority" PNone) (PStr "High")).

(** X1: a claim is sent to straight-through processing only if it is a
    dictionary whose confidence is not below the threshold, that is
    compliant and not of high priority, and whose value is present, is
    not zero, is not above the high-value threshold and is at most the
    threshold of straight-through processing. *)
Theorem stp_only_if (claim_data : pyval) :
  decision_of (route claim_data) =
    Some "Route to Straight-Through Processing (STP)" ->
  exists d value high stp,
    claim_data = PDict d /\
    py_lt (confidence_of d) CONFIDENCE_THRESHOLD = Ok false /\
    compliant d = true /\
    high_priority d = false /\
    assoc "value" d = Some value /\
    truthy value = true /\
    py_getitem ROUTING_RULES "high_value_threshold" = Ok high /\
    py_gt value high = Ok false /\
    py_getitem ROUTING_RULES "stp_threshold" = Ok stp /\
    py_le value stp = Ok true.
Proof.
  unfold intelligent_route.
  destruct claim_data as [| | | | | |d]; try discriminate.
  cbn [try_except bind].
  destruct (py_lt (confidence_of d) CONFIDENCE_THRESHOLD) as [[|]|e] eqn:Hlow;
    cbn [bind]; try discriminate.
  { destruct (format_2f (confidence_of d)); discriminate. }
  destruct (compliant d) eqn:Hcomp; cbn [negb];
    [|destruct (py_str float_repr repr _); discriminate].
  destruct (high_priority d) eqn:Hprio; [discriminate|].
  unfold value_rule, get.
  destruct (assoc "value" d) as [value|] eqn:Hval; cbn [truthy];
    [|discriminate].
  destruct (truthy value) eqn:Htruthy; [|discriminate].
  cbn [py_getitem]. rewrite Hval. cbn [bind].
  destruct (py_getitem ROUTING_RULES "high_value_threshold") as [high|e]
    eqn:Hhigh; [|discriminate]. cbn [bind]. fold py_gt.
  destruct (py_gt value high) as [[|]|e] eqn:Hgt; try discriminate.
  cbn [bind].
  destruct (py_getitem ROUTING_RULES "stp_threshold") as [stp|e] eqn:Hstp;
    [|discriminate]. cbn [bind]. fold py_le.
  destruct (py_le value stp) as [[|]|e] eqn:Hle; try discriminate.
  intros _. exists d, value, high, stp. repeat split; assumption.
Qed.

(** X2: a claim that is not compliant is never sent to a queue: it is
    flagged for manual review, or denied with a reason that quotes the
    compliance reason. *)
Theorem non_compliant_is_never_queued (d : list (string * pyval)) :
  compliant d = false ->
  decision_of (route (PDict d)) = Some "Flag for Manual Review" \/
  exists shown,
    py_str float_repr repr (get d "compliance_reason" (PStr "Unknown")) = Ok shown /\
    route (PDict d) =
      Ok (routing "Auto-Deny" ("Non-compliant: " ++ shown)).
Proof.
  intros Hcomp. unfold intelligent_route. cbn [try_except bind].
  destruct (py_lt (confidence_of d) CONFIDENCE_THRESHOLD) as [[|]|e];
    cbn [bind].
  - left. destruct (format_2f (confidence_of d)); reflexivity.
  - rewrite Hcomp. cbn [negb].
    destruct (py_str float_repr repr (get d "compliance_reason" (PStr "Unknown")))
      as [shown|e]; cbn [bind].
    + right. now exists shown.
    + left. reflexivity.
  - left. reflexivity.
Qed.

(** X3: the decision on a dictionary is one of the five routing
    decisions; anything else gets "Flag for Review". *)
Theorem decisions_of_the_router (claim_data : pyval) :
  match claim_data with
  | PDict _ =>
      exists r, decision_of (route claim_data) = Some (rule_decision r)
  | _ =>
      route claim_data =
        Ok (routing "Flag for Review" "Invalid claim data format.")
  end.
Proof.
  destruct claim_data as [| | | | | |d]; try reflexivity.
  unfold intelligent_route. cbn [try_except bind].
  destruct (py_lt (confidence_of d) CONFIDENCE_THRESHOLD) as [[|]|e];
    cbn [bind]; try (exists LowConfidence; reflexivity).
  { exists LowConfidence. destruct (format_2f (confidence_of d)); reflexivity. }
  destruct (compliant d); cbn [negb].
  2:{ destruct (py_str float_repr repr _); cbn [bind];
        [exists NonCompliant | exists LowConfidence]; reflexivity. }
  match goal with
  | |- context [bind ?x _] => destruct x as [[|]|e]; cbn [bind]
  end; try (exists SeniorAdjuster; reflexivity);
    try (exists LowConfidence; reflexivity).
  match goal with
  | |- context [bind ?x _] => destruct x as [[|]|e]; cbn [bind]
  end;
    [exists StraightThrough | exists GeneralQueue | exists LowConfidence];
    reflexivity.
Qed.

Lemma route_ext (d1 d2 : list (string * pyval)) :
  (forall k, In k routing_keys -> assoc k d1 = assoc k d2) ->
  route (PDict d1) = route (PDict d2).
Proof.
  intros Hext. unfold intelligent_route, value_rule, get. cbn [py_getitem].
  rewrite !(Hext "confidence"), !(Hext "is_compliant"),
    !(Hext "compliance_reason"), !(Hext "priority"), !(Hext "value")
    by (cbn; tauto).
  reflexivity.
Qed.

(** X4: the router reads five keys only: writing or deleting any other
    entry of the claim data (the entities, the claim type, ...) changes
    neither the decision nor the reason. *)
Theorem other_entries_do_not_route (d : list (string * pyval)) (k : string)
  (v : pyval) :
  ~ In k routing_keys ->
  route (PDict (dict_set k v d)) = route (PDict d) /\
  route (PDict (dict_del k d)) = route (PDict d).
Proof.
  intros Hk. split; apply route_ext; intros k' Hk'.
  - apply assoc_dict_set_ne. congruence.
  - apply assoc_dict_del_ne. congruence.
Qed.

(** X5: a compliant claim of high priority whose confidence is not below
    the threshold goes to the senior adjuster whatever its value and the
    routing rules are: the thresholds are not read. *)
Theorem high_priority_needs_no_threshold (d : list (string * pyval)) :
  py_lt (confidence_of d) CONFIDENCE_THRESHOLD = Ok false ->
  compliant d = true ->
  high_priority d = true ->
  route (PDict d) =
    Ok (routing "Route to Senior Adjuster" "High priority or high value claim").
Proof.
  intros Hc Hcomp Hp. unfold intelligent_route. cbn [try_except bind].
  rewrite Hc. cbn [bind]. rewrite Hcomp, Hp. reflexivity.
Qed.

(** X6: when a claim reaches the value rules with a value that is not
    zero and the high-value threshold cannot be read (the key is missing,
    or the routing rules are not a dictionary), the claim is flagged for
    manual review and the reason reports the error. *)
Theorem unreadable_threshold_is_flagged (d : list (string * pyval))
  (value : pyval) (e : exn) :
  py_lt (confidence_of d) CONFIDENCE_THRESHOLD = Ok false ->
  compliant d = true ->
  high_priority d = false ->
  assoc "value" d = Some value ->
  truthy value = true ->
  py_getitem ROUTING_RULES "high_value_threshold" = Raise e ->
  route (PDict d) =
    Ok (routing "Flag for Manual Review" ("Routing error: " ++ exn_str e)).
Proof.
  intros Hc Hcomp Hp Hv Ht He.
  unfold intelligent_route, value_rule, get. cbn [try_except bind py_getitem].
  unfold get in Hc, Hcomp, Hp. rewrite Hc. cbn [bind]. rewrite Hcomp, Hp.
  cbn [negb]. rewrite Hv, Ht. cbn [bind]. rewrite He. reflexivity.
Qed.

(** X7: a value above the high-value threshold goes to the senior
    adjuster before the threshold of straight-through processing is
    read: with a threshold of straight-through processing above the
    high-value one, the values between the two go to the senior adjuster. *)
Theorem high_value_precedes_stp (d : list (string * pyval))
  (value high : pyval) :
  py_lt (confidence_of d) CONFIDENCE_THRESHOLD = Ok false ->
  compliant d = true ->
  assoc "value" d = Some value ->
  truthy value = true ->
  py_getitem ROUTING_RULES "high_value_threshold" = Ok high ->
  py_gt value high = Ok true ->
  route (PDict d) =
    Ok (routing "Route to Senior Adjuster" "High priority or high value claim").
Proof.
  intros Hc Hcomp Hv Ht Hh Hgt.
  unfold intelligent_route, value_rule, get. cbn [try_except bind py_getitem].
  unfold get in Hc, Hcomp. rewrite Hc. cbn [bind]. rewrite Hcomp.
  cbn [negb]. destruct (py_eq _ (PStr "High")); [reflexivity|].
  rewrite Hv, Ht. cbn [bind]. rewrite Hh. cbn [bind]. fold py_gt.
  rewrite Hgt. reflexivity.
Qed.

End RouterFurther.

(** ** Further properties of the compliance engine *)

Lemma str_in_empty (s : string) : str_in "" s = true.
Proof. destruct s; reflexivity. Qed.

Lemma lower_nonempty (s : string) : String.eqb (lower s) "" = String.eqb s "".
Proof. destruct s; reflexivity. Qed.

Lemma scan_exclusions_none (items : list pyval) (text : string) :
  scan_exclusions items (PStr text) = Ok None ->
  Forall (fun item =>
            exists e, item = PStr e /\ str_in e (lower text) = false) items.
Proof.
  induction items as [|item rest IH]; cbn [scan_exclusions py_lower bind].
  - constructor.
  - destruct item; cbn [py_in bind]; try discriminate.
    destruct (str_in s (lower text)) eqn:Hin; [discriminate|].
    intros H. constructor; [now exists s | now apply IH].
Qed.

Lemma scan_exclusions_lower (items : list pyval) (t1 t2 : string) :
  lower t1 = lower t2 ->
  scan_exclusions items (PStr t1) = scan_exclusions items (PStr t2).
Proof.
  intros H. induction items as [|item rest IH];
    cbn [scan_exclusions py_lower bind]; [reflexivity|].
  rewrite H, IH. reflexivity.
Qed.

Section ComplianceFurther.

Variable exn_str : exn -> string.
Variable float_repr : float -> string.
Variable repr : pyval -> result string.
Variable POLICY_DB : pyval.

Local Abbreviation check :=
  (check_policy_compliance exn_str float_repr repr POLICY_DB).

(** X8: a claim is found compliant only with the reason "Compliant", and
    only if the policy number starts with a well-formed number that is a
    key of the policy store, the coverage of that policy contains the
    claim type, and every exclusion of the policy is a string that does
    not occur in the lowered claim text. *)
Theorem compliant_only_if (policy_number claim_type claim_details : pyval)
  (reason : string) :
  check policy_number claim_type claim_details = Ok (true, reason) ->
  reason = "Compliant" /\
  truthy claim_type = true /\
  truthy claim_details = true /\
  exists pn db policy coverage exclusions items,
    policy_number = PStr pn /\
    re_match policy_number_pattern pn = true /\
    POLICY_DB = PDict db /\
    assoc pn db = Some policy /\
    py_getitem policy "coverage" = Ok coverage /\
    py_in claim_type coverage = Ok true /\
    py_getitem policy "exclusions" = Ok exclusions /\
    py_iter exclusions = Ok items /\
    forall text,
      claim_details = PStr text ->
      Forall (fun item =>
                exists e, item = PStr e /\ str_in e (lower text) = false)
        items.
Proof.
  unfold check_policy_compliance.
  destruct policy_number as [| | | |pn| |];
    try (destruct (py_str float_repr repr _); cbn [bind]; [|discriminate];
         destruct (_ || _); discriminate).
  cbn [py_str bind].
  destruct (truthy (PStr pn)) eqn:Hpn; cbn [negb orb];
    [|discriminate].
  destruct (truthy claim_type) eqn:Hct; cbn [negb orb]; [|discriminate].
  destruct (truthy claim_details) eqn:Hcd; cbn [negb orb]; [|discriminate].
  cbn [py_re_match bind].
  destruct (re_match policy_number_pattern pn) eqn:Hm; cbn [negb];
    [|discriminate].
  destruct POLICY_DB as [| | | | | |db]; cbn [py_get bind]; try discriminate.
  unfold get. destruct (assoc pn db) as [policy|] eqn:Hdb; [|discriminate].
  destruct (truthy policy); cbn [negb]; [|discriminate].
  destruct (py_getitem policy "coverage") as [coverage|e] eqn:Hcov;
    cbn [bind]; [|discriminate].
  destruct (py_in claim_type coverage) as [[|]|e] eqn:Hin; cbn [bind negb];
    try discriminate; [|destruct (py_str float_repr repr claim_type); discriminate].
  destruct (py_getitem policy "exclusions") as [exclusions|e] eqn:Hexc;
    cbn [bind]; [|discriminate].
  destruct (py_iter exclusions) as [items|e] eqn:Hit; cbn [bind];
    [|discriminate].
  destruct (scan_exclusions items claim_details) as [[hit|]|e] eqn:Hscan;
    cbn [bind try_except]; try discriminate;
    [destruct (py_str float_repr repr hit); discriminate|].
  intros [= <-]. repeat split.
  exists pn, db, policy, coverage, exclusions, items.
  repeat split; try assumption.
  intros text ->. now apply scan_exclusions_none.
Qed.

(** X9: with the three fields given, the result is the format error
    exactly when the policy number does not start with a well-formed
    number PN-<letters>-<digits>: text after such a number passes the
    format check. *)
Theorem format_error_iff (policy_number : string)
  (claim_type claim_details : pyval) :
  policy_number <> "" ->
  truthy claim_type = true ->
  truthy claim_details = true ->
  (check (PStr policy_number) claim_type claim_details =
     Ok (false, "Invalid Policy Number format: " ++ policy_number) <->
   ~ exists w rest,
       policy_number = w ++ rest /\ well_formed_policy_number w).
Proof.
  intros Hne Hct Hcd. rewrite <- policy_number_format_spec.
  unfold check_policy_compliance.
  rewrite (truthy_nonempty _ Hne), Hct, Hcd. cbn [negb orb py_re_match bind].
  destruct (re_match policy_number_pattern policy_number);
    cbn [negb py_str]; [|split; [discriminate | reflexivity]].
  split; [|congruence]. intros H. exfalso. revert H.
  repeat match goal with
         | |- context [bind ?x _] => destruct x; cbn [bind try_except]
         | |- context [if ?b then _ else _] => destruct b; cbn [bind try_except]
         | |- context [match ?x with Some _ => _ | None => _ end] =>
             destruct x; cbn [bind try_except]
         end;
    cbn; discriminate.
Qed.

(** X10: a policy number that is not a key of the policy store, or whose
    record is empty (None, an empty dictionary, ...), is reported as not
    found, whatever the claim type and the claim text are. *)
Theorem missing_policy_is_not_found (db : list (string * pyval))
  (policy_number : string) (claim_type claim_details : pyval) :
  POLICY_DB = PDict db ->
  re_match policy_number_pattern policy_number = true ->
  truthy claim_type = true ->
  truthy claim_details = true ->
  truthy (get db policy_number PNone) = false ->
  check (PStr policy_number) claim_type claim_details =
    Ok (false, "Policy " ++ policy_number ++ " not found").
Proof.
  intros Hdb Hm Hct Hcd Hpol.
  assert (Hpn : truthy (PStr policy_number) = true).
  { destruct policy_number; [discriminate Hm | reflexivity]. }
  unfold check_policy_compliance.
  rewrite Hdb, Hpn, Hct, Hcd. cbn [negb orb py_re_match bind].
  rewrite Hm. cbn [negb py_get bind]. rewrite Hpol. reflexivity.
Qed.

(** X11: a policy record without the key "coverage" makes the check fail
    with the reason of the caught KeyError; the claim is not compliant
    and nothing is raised. *)
Theorem policy_without_coverage (db policy : list (string * pyval))
  (policy_number : string) (claim_type claim_details : pyval) :
  POLICY_DB = PDict db ->
  re_match policy_number_pattern policy_number = true ->
  truthy claim_type = true ->
  truthy claim_details = true ->
  assoc policy_number db = Some (PDict policy) ->
  policy <> [] ->
  assoc "coverage" policy = None ->
  check (PStr policy_number) claim_type claim_details =
    Ok (false, "Compliance check failed: " ++ exn_str (KeyError "coverage")).
Proof.
  intros Hdb Hm Hct Hcd Hpol Hne Hcov.
  assert (Hpn : truthy (PStr policy_number) = true).
  { destruct policy_number; [discriminate Hm | reflexivity]. }
  unfold check_policy_compliance.
  rewrite Hdb, Hpn, Hct, Hcd. cbn [negb orb py_re_match bind].
  rewrite Hm. cbn [negb py_get bind]. unfold get. rewrite Hpol.
  destruct policy; [congruence|]. cbn [truthy negb py_getitem].
  rewrite Hcov. reflexivity.
Qed.

(** X12: the result does not depend on the case of the letters of the
    claim text, for every policy store. *)
Theorem claim_text_case_is_ignored (policy_number claim_type : pyval)
  (text1 text2 : string) :
  lower text1 = lower text2 ->
  check policy_number claim_type (PStr text1) =
  check policy_number claim_type (PStr text2).
Proof.
  intros H. unfold check_policy_compliance.
  assert (Ht : truthy (PStr text1) = truthy (PStr text2)).
  { cbn [truthy]. now rewrite <- (lower_nonempty text1), H, lower_nonempty. }
  rewrite Ht.
  destruct (negb (truthy policy_number) || negb (truthy claim_type)
            || negb (truthy (PStr text2))); [reflexivity|].
  f_equal.
  destruct (py_re_match policy_number_pattern policy_number) as [[|]|e];
    cbn [bind negb]; try reflexivity.
  destruct (py_get POLICY_DB policy_number) as [policy|e]; cbn [bind];
    [|reflexivity].
  destruct (negb (truthy policy)); [reflexivity|].
  destruct (py_getitem policy "coverage") as [coverage|e]; cbn [bind];
    [|reflexivity].
  destruct (py_in claim_type coverage) as [[|]|e]; cbn [bind negb];
    try reflexivity.
  destruct (py_getitem policy "exclusions") as [exclusions|e]; cbn [bind];
    [|reflexivity].
  destruct (py_iter exclusions) as [items|e]; cbn [bind]; [|reflexivity].
  now rewrite (scan_exclusions_lower items text1 text2 H).
Qed.

(** X13: an empty exclusion phrase occurs in every text: a policy that
    lists one rejects every claim that reaches the scan of the
    exclusions. *)
Theorem empty_exclusion_rejects_all
  (db policy : list (string * pyval)) (coverage claim_type : pyval)
  (exclusions : list string) (policy_number claim_text : string) :
  POLICY_DB = PDict db ->
  re_match policy_number_pattern policy_number = true ->
  assoc policy_number db = Some (PDict policy) ->
  assoc "coverage" policy = Some coverage ->
  assoc "exclusions" policy = Some (PList (map PStr exclusions)) ->
  In "" exclusions ->
  truthy claim_type = true ->
  py_in claim_type coverage = Ok true ->
  claim_text <> "" ->
  exists e,
    In e exclusions /\
    check (PStr policy_number) claim_type (PStr claim_text) =
      Ok (false, "Claim rejected due to exclusion clause: '" ++ e ++ "'.").
Proof.
  intros Hstore Hm Hdb Hcov Hexc Hempty Hct Hin Htext.
  assert (Hpn : truthy (PStr policy_number) = true).
  { destruct policy_number; [discriminate Hm | reflexivity]. }
  assert (Hpol : truthy (PDict policy) = true).
  { destruct policy; [discriminate Hcov | reflexivity]. }
  destruct (find (fun e => str_in e (lower claim_text)) exclusions)
    as [e|] eqn:Hfind.
  - exists e. split; [now apply find_some in Hfind|].
    unfold check_policy_compliance.
    rewrite Hstore, Hpn, Hct, (truthy_nonempty _ Htext). cbn [negb orb].
    cbn [py_re_match bind]. rewrite Hm. cbn [negb py_get bind]. unfold get.
    rewrite Hdb. cbn [bind]. rewrite Hpol. cbn [negb py_getitem].
    rewrite Hcov. cbn [bind]. rewrite Hin. cbn [bind negb]. rewrite Hexc.
    cbn [bind py_iter]. rewrite scan_exclusions_strings, Hfind. reflexivity.
  - exfalso. apply (find_none _ _ Hfind) in Hempty.
    now rewrite str_in_empty in Hempty.
Qed.

End ComplianceFurther.

(** ** Further properties of the classifier and of the orchestrator *)

Lemma lower_app (a b : string) : lower (a ++ b) = lower a ++ lower b.
Proof. induction a as [|c a IH]; simpl; [reflexivity | now rewrite IH]. Qed.

Lemma app_string_assoc (a b c : string) : (a ++ b) ++ c = a ++ b ++ c.
Proof. induction a as [|x a IH]; simpl; [reflexivity | now rewrite IH]. Qed.

Lemma str_in_context (sub s before after : string) :
  str_in sub s = true -> str_in sub (before ++ s ++ after) = true.
Proof.
  rewrite !str_in_spec. intros [b [a ->]].
  exists (before ++ b), (a ++ after).
  now rewrite !app_string_assoc.
Qed.

Lemma priority_of_high (text : string) :
  priority_of text = "High" <->
  existsb (fun kw => str_in kw (lower text)) high_priority_keywords = true.
Proof.
  unfold priority_of.
  destruct (existsb _ high_priority_keywords); split; congruence.
Qed.

Lemma classify_claim_priority (model : option sk_model)
  (text : string) (claim_type confidence priority : pyval) :
  classify_claim model (PStr text) = (claim_type, confidence, priority) ->
  priority = PNone /\ claim_type = PNone \/
  priority = PStr (priority_of text) /\ claim_type <> PNone.
Proof.
  unfold classify_claim. destruct model as [m|];
    [|intros [= <- <- <-]; left; split; reflexivity].
  destruct (negb (truthy (PStr text)));
    [intros [= <- <- <-]; left; split; reflexivity|].
  destruct (predict m text); cbn [bind];
    [|intros [= <- <- <-]; left; split; reflexivity].
  destruct (predict_proba_max m text);
    intros [= <- <- <-]; [right | left]; split; try reflexivity.
  discriminate.
Qed.

(** X14: text around a claim text never lowers the priority: when a text
    is classified with priority "High", every text that contains it is
    classified with priority "High" too, by every model that gives it a
    claim type. *)
Theorem more_text_keeps_high_priority (model model' : option sk_model)
  (text before after : string)
  (claim_type confidence claim_type' confidence' priority' : pyval) :
  classify_claim model (PStr text) = (claim_type, confidence, PStr "High") ->
  classify_claim model' (PStr (before ++ text ++ after)) =
    (claim_type', confidence', priority') ->
  claim_type' <> PNone ->
  priority' = PStr "High".
Proof.
  intros H H' Hct'.
  apply classify_claim_priority in H as [[H _] | [H _]]; [discriminate|].
  apply classify_claim_priority in H' as [[_ H'] | [-> _]]; [congruence|].
  injection H as H. symmetry in H. apply priority_of_high in H.
  f_equal. apply priority_of_high.
  apply existsb_exists in H as [kw [Hkw Hin]].
  apply existsb_exists. exists kw. split; [assumption|].
  rewrite !lower_app. now apply str_in_context.
Qed.

Section PipelineFurther.

Variable exn_str : exn -> string.
Variable float_repr : float -> string.
Variable repr : pyval -> result string.
Variable POLICY_DB : pyval.
Variable CONFIDENCE_THRESHOLD : pyval.
Variable ROUTING_RULES : pyval.
Variable process_document : string -> pyval * pyval.

Local Abbreviation route :=
  (intelligent_route exn_str float_repr repr CONFIDENCE_THRESHOLD ROUTING_RULES).
Local Abbreviation check :=
  (check_policy_compliance exn_str float_repr repr POLICY_DB).
Local Abbreviation run_pipeline :=
  (run exn_str float_repr repr POLICY_DB CONFIDENCE_THRESHOLD ROUTING_RULES
     process_document).

(** What a run does, stage by stage. *)
Lemma run_cases (self : ClaimsPipeline) (image_path : string)
  (log : list stage) :
  let entities := fst (process_document image_path) in
  let text := snd (process_document image_path) in
  let claim_type := fst (fst (classify_claim (Some (classifier self)) text)) in
  let confidence := snd (fst (classify_claim (Some (classifier self)) text)) in
  let priority := snd (classify_claim (Some (classifier self)) text) in
  (exists reason,
      run_pipeline self image_path log =
        (Ok (failed reason), (log ++ [Extracting])%list) /\
      reason =
        "Could not process document. The image may be unreadable or blank." /\
      (truthy entities = false \/ truthy text = false)) \/
  (exists reason,
      run_pipeline self image_path log =
        (Ok (failed reason), (log ++ [Extracting; Classifying])%list) /\
      truthy entities = true /\ truthy text = true /\
      (reason = "Could not classify the claim from the text." /\
       truthy claim_type = false \/
       exists e,
         reason = "An unexpected error occurred: " ++ exn_str e /\
         truthy claim_type = true /\
         py_get entities (PStr "POLICY_NO") = Raise e)) \/
  (exists policy_no e,
      run_pipeline self image_path log =
        (Ok (failed ("An unexpected error occurred: " ++ exn_str e)),
         (log ++ [Extracting; Classifying; CheckingCompliance])%list) /\
      truthy claim_type = true /\
      py_get entities (PStr "POLICY_NO") = Ok policy_no /\
      py_str float_repr repr policy_no = Raise e) \/
  (exists policy_no value c is_compliant details,
      py_get entities (PStr "POLICY_NO") = Ok policy_no /\
      py_get entities (PStr "CLAIM_VALUE") = Ok value /\
      confidence = PFloat c /\
      truthy claim_type = true /\
      check policy_no claim_type text = Ok (is_compliant, details) /\
      exists final_decision,
        route (PDict [("entities", entities);
                      ("type", claim_type);
                      ("confidence", confidence);
                      ("priority", priority);
                      ("value", value);
                      ("is_compliant", PBool is_compliant);
                      ("compliance_reason", PStr details)]) =
          Ok final_decision /\
        run_pipeline self image_path log =
          (Ok (success_record entities claim_type priority
                 (sf_format_2f (Prim2SF c)) is_compliant details
                 final_decision),
           (log ++ [Extracting; Classifying; CheckingCompliance; Routing])%list)).
Proof.
  cbv zeta. unfold run, m_try_except, mbind, invoke, ret, lift.
  destruct (process_document image_path) as [entities text]. cbn [fst snd].
  destruct (truthy entities) eqn:He; cbn [negb orb].
  2:{ left. eexists. repeat split. now left. }
  destruct (truthy text) eqn:Ht; cbn [negb orb].
  2:{ left. eexists. repeat split. now right. }
  right.
  destruct (classify_claim_confidence (Some (classifier self)) text) as [c Hc].
  destruct (classify_claim (Some (classifier self)) text)
    as [[claim_type confidence] priority].
  cbn [fst snd] in *. subst confidence.
  rewrite <- !app_assoc. cbn [app].
  destruct (truthy claim_type) eqn:Hct; cbn [negb].
  2:{ left. eexists. repeat split. left. now split. }
  destruct (py_get entities (PStr "POLICY_NO")) as [policy_no|e] eqn:Hget.
  2:{ left. eexists. repeat split. right. exists e. repeat split. }
  right.
  destruct (py_str float_repr repr policy_no) as [shown|e] eqn:Hstr.
  2:{ left. exists policy_no, e.
      rewrite (check_policy_compliance_raises exn_str float_repr repr
                 POLICY_DB policy_no claim_type text e Hstr).
      rewrite <- !app_assoc. cbn [app]. repeat split. exact Hstr. }
  right.
  destruct (check_policy_compliance_total exn_str float_repr repr POLICY_DB
              policy_no claim_type text (ex_intro _ shown Hstr))
    as [b [details Hchk]].
  rewrite Hchk.
  assert (Hval : exists value, py_get entities (PStr "CLAIM_VALUE") = Ok value).
  { destruct entities; try discriminate Hget. eexists; reflexivity. }
  destruct Hval as [value Hval]. rewrite Hval.
  match goal with
  | |- context [intelligent_route _ _ _ _ _ ?cd] =>
      destruct (intelligent_route_total exn_str float_repr repr CONFIDENCE_THRESHOLD
                  ROUTING_RULES cd) as [decision [reason Hroute]]
  end.
  rewrite Hroute. cbn [format_2f]. rewrite <- !app_assoc. cbn [app].
  exists policy_no, value, c, b, details. repeat split; try assumption.
  exists (routing decision reason).
  split; [first [exact Hroute | reflexivity] | reflexivity].
Qed.

End PipelineFurther.

Section PipelineComposition.

Variable exn_str : exn -> string.
Variable float_repr : float -> string.
Variable repr : pyval -> result string.
Variable POLICY_DB : pyval.
Variable CONFIDENCE_THRESHOLD : pyval.
Variable ROUTING_RULES : pyval.
Variable process_document : string -> pyval * pyval.

Local Abbreviation route :=
  (intelligent_route exn_str float_repr repr CONFIDENCE_THRESHOLD ROUTING_RULES).
Local Abbreviation check :=
  (check_policy_compliance exn_str float_repr repr POLICY_DB).
Local Abbreviation run_pipeline :=
  (run exn_str float_repr repr POLICY_DB CONFIDENCE_THRESHOLD ROUTING_RULES
     process_document).

(** X15: a run never raises.  It invokes the stages in their order and
    either stops after the extraction, after the classification or after
    the compliance check, with a record of a status "Failed" and a reason
    and nothing else, or invokes all four stages and returns the record
    of five entries whose status is "Success".  It stops after the
    compliance check only when [str] raises on the policy number, and
    the reason is then the one of an unexpected error. *)
Theorem run_outcomes (self : ClaimsPipeline) (image_path : string)
  (log : list stage) :
  exists record trace,
    run_pipeline self image_path log = (Ok (PDict record), (log ++ trace)%list) /\
    ((trace = [Extracting] \/ trace = [Extracting; Classifying]) /\
     (exists reason,
         record = [("status", PStr "Failed"); ("reason", PStr reason)]) \/
     trace = [Extracting; Classifying; CheckingCompliance] /\
     (exists policy_no e,
         py_get (fst (process_document image_path)) (PStr "POLICY_NO") =
           Ok policy_no /\
         py_str float_repr repr policy_no = Raise e /\
         record =
           [("status", PStr "Failed");
            ("reason",
             PStr ("An unexpected error occurred: " ++ exn_str e))]) \/
     trace = [Extracting; Classifying; CheckingCompliance; Routing] /\
     assoc "status" record = Some (PStr "Success") /\
     map fst record =
       ["status"; "extracted_data"; "classification"; "compliance";
        "final_routing"]).
Proof.
  destruct (run_cases exn_str float_repr repr POLICY_DB CONFIDENCE_THRESHOLD
              ROUTING_RULES process_document self image_path log)
    as [[reason [Hrun _]] | [[reason [Hrun _]] | [H | H]]].
  - eexists; eexists. split; [exact Hrun|]. left.
    split; [now left | now exists reason].
  - eexists; eexists. split; [exact Hrun|]. left.
    split; [now right | now exists reason].
  - destruct H as [policy_no [e [Hrun [_ [Hget Hstr]]]]].
    eexists; eexists. split; [exact Hrun|]. right. left.
    split; [reflexivity|]. now exists policy_no, e.
  - destruct H as [policy_no [value [c [b [details H]]]]].
    destruct H as [_ [_ [_ [_ [_ [final [_ Hrun]]]]]]].
    eexists; eexists. split; [exact Hrun|]. right. right. repeat split.
Qed.

Lemma route_non_compliant (d : list (string * pyval)) (details : string) :
  get d "is_compliant" (PBool false) = PBool false ->
  get d "compliance_reason" (PStr "Unknown") = PStr details ->
  exists decision reason,
    route (PDict d) = Ok (routing decision reason) /\
    (decision = "Flag for Manual Review" \/
     decision = "Auto-Deny" /\ reason = "Non-compliant: " ++ details).
Proof.
  intros Hc Hr. unfold intelligent_route. cbn [try_except bind].
  destruct (py_lt (get d "confidence" (PFloat 0)) CONFIDENCE_THRESHOLD)
    as [[|]|e]; cbn [bind].
  - destruct (format_2f (get d "confidence" (PFloat 0))); cbn [bind];
      eexists; eexists; (split; [reflexivity | now left]).
  - rewrite Hc, Hr. cbn [truthy negb py_str].
    eexists; eexists. split; [reflexivity | right; now split].
  - eexists; eexists. split; [reflexivity | now left].
Qed.

(** X16: a run never sends a claim that is not compliant to a queue:
    when the record of a run reports the claim as not compliant, its
    final decision is "Flag for Manual Review", or "Auto-Deny" with a
    reason that quotes the details of the compliance check. *)
Theorem run_never_queues_non_compliant (self : ClaimsPipeline)
  (image_path : string) (log log' : list stage)
  (record : list (string * pyval)) (details : string) :
  run_pipeline self image_path log = (Ok (PDict record), log') ->
  assoc "compliance" record =
    Some (PDict [("compliant", PBool false); ("details", PStr details)]) ->
  exists decision reason,
    assoc "final_routing" record = Some (routing decision reason) /\
    (decision = "Flag for Manual Review" \/
     decision = "Auto-Deny" /\ reason = "Non-compliant: " ++ details).
Proof.
  intros Hrun Hcomp.
  destruct (run_cases exn_str float_repr repr POLICY_DB CONFIDENCE_THRESHOLD
              ROUTING_RULES process_document self image_path log)
    as [[reason [Hrun' _]] | [[reason [Hrun' _]]
        | [[policy_no [e [Hrun' _]]] | H]]].
  - rewrite Hrun in Hrun'. injection Hrun' as -> _. discriminate Hcomp.
  - rewrite Hrun in Hrun'. injection Hrun' as -> _. discriminate Hcomp.
  - rewrite Hrun in Hrun'. injection Hrun' as -> _. discriminate Hcomp.
  - destruct H as [policy_no [value [c [b [details' H]]]]].
    destruct H as [_ [_ [_ [_ [_ [final [Hroute Hrun']]]]]]].
    rewrite Hrun in Hrun'. injection Hrun' as -> _.
    cbn in Hcomp. injection Hcomp as -> ->.
    match type of Hroute with
    | intelligent_route _ _ _ _ _ (PDict ?d) = _ =>
        destruct (route_non_compliant d details eq_refl eq_refl)
          as [decision [reason [Hroute' Hcases]]]
    end.
    rewrite Hroute in Hroute'. injection Hroute' as ->.
    now exists decision, reason.
Qed.

(** X17: a document without a policy number is denied when the
    classifier is confident: the compliance check reports the missing
    field and the router quotes that reason. *)
Theorem run_without_policy_number (self : ClaimsPipeline)
  (image_path text label : string) (entities : list (string * pyval))
  (c : float) (log : list stage) :
  process_document image_path = (PDict entities, PStr text) ->
  entities <> [] ->
  text <> "" ->
  truthy (get entities "POLICY_NO" PNone) = false ->
  predict (classifier self) text = Ok label ->
  label <> "" ->
  predict_proba_max (classifier self) text = Ok c ->
  py_lt (PFloat c) CONFIDENCE_THRESHOLD = Ok false ->
  run_pipeline self image_path log =
    (Ok (success_record (PDict entities) (PStr label)
           (PStr (priority_of text)) (sf_format_2f (Prim2SF c)) false
           "Invalid Data (Missing Policy No., Claim Type, or Claim Details)"
           (routing "Auto-Deny"
              "Non-compliant: Invalid Data (Missing Policy No., Claim Type, or Claim Details)")),
     (log ++ [Extracting; Classifying; CheckingCompliance; Routing])%list).
Proof.
  intros Hdoc Hent Htext Hpn Hpred Hlabel Hproba Hconf.
  unfold run, m_try_except, mbind, invoke, ret, lift. rewrite Hdoc.
  assert (He : truthy (PDict entities) = true).
  { destruct entities; [congruence | reflexivity]. }
  rewrite He, (truthy_nonempty _ Htext). cbn [negb orb].
  unfold classify_claim. rewrite (truthy_nonempty _ Htext). cbn [negb].
  rewrite Hpred. cbn [bind]. rewrite Hproba. cbn [bind].
  rewrite (truthy_nonempty _ Hlabel). cbn [negb py_get].
  destruct (str_returns_falsy float_repr repr _ Hpn) as [logged Hlogged].
  unfold check_policy_compliance at 1. rewrite Hlogged, Hpn.
  cbn [bind negb orb try_except].
  unfold intelligent_route. cbn [try_except bind get assoc String.eqb Ascii.eqb Bool.eqb].
  rewrite Hconf. cbn [bind truthy negb py_str format_2f].
  rewrite <- !app_assoc. reflexivity.
Qed.

(** X18: the priority the classifier gives reaches the router: a run on
    a compliant claim whose text holds one of the keywords, classified
    with a confidence that is not below the threshold, ends at the
    senior adjuster, whatever the value of the claim is. *)
Theorem run_of_high_priority_claim (self : ClaimsPipeline)
  (image_path text label details : string) (entities : list (string * pyval))
  (c : float) (log : list stage) :
  process_document image_path = (PDict entities, PStr text) ->
  entities <> [] ->
  text <> "" ->
  predict (classifier self) text = Ok label ->
  label <> "" ->
  predict_proba_max (classifier self) text = Ok c ->
  py_lt (PFloat c) CONFIDENCE_THRESHOLD = Ok false ->
  existsb (fun kw => ci_in kw text)
    ["major"; "fire"; "totaled"; "emergency"; "collision"] = true ->
  check (get entities "POLICY_NO" PNone) (PStr label) (PStr text) =
    Ok (true, details) ->
  run_pipeline self image_path log =
    (Ok (success_record (PDict entities) (PStr label) (PStr "High")
           (sf_format_2f (Prim2SF c)) true details
           (routing "Route to Senior Adjuster"
              "High priority or high value claim")),
     (log ++ [Extracting; Classifying; CheckingCompliance; Routing])%list).
Proof.
  intros Hdoc Hent Htext Hpred Hlabel Hproba Hconf Hkw Hchk.
  assert (Hprio : priority_of text = "High").
  { apply priority_of_high. exact Hkw. }
  unfold run, m_try_except, mbind, invoke, ret, lift. rewrite Hdoc.
  assert (He : truthy (PDict entities) = true).
  { destruct entities; [congruence | reflexivity]. }
  rewrite He, (truthy_nonempty _ Htext). cbn [negb orb].
  unfold classify_claim. rewrite (truthy_nonempty _ Htext). cbn [negb].
  rewrite Hpred. cbn [bind]. rewrite Hproba. cbn [bind].
  rewrite (truthy_nonempty _ Hlabel), Hprio. cbn [negb py_get].
  rewrite Hchk.
  unfold intelligent_route. cbn [try_except bind get assoc String.eqb Ascii.eqb Bool.eqb].
  rewrite Hconf. cbn [bind truthy negb py_eq String.eqb Ascii.eqb Bool.eqb format_2f].
  rewrite <- !app_assoc. reflexivity.
Qed.

End PipelineComposition.

(** ** The document processor *)

Lemma all_chars_app (p : ascii -> bool) (a b : string) :
  all_chars p (a ++ b) = all_chars p a && all_chars p b.
Proof.
  induction a as [|c a IH]; simpl; [reflexivity|].
  now rewrite IH, andb_assoc.
Qed.

Lemma all_chars_impl (p q : ascii -> bool) (s : string) :
  (forall c, p c = true -> q c = true) ->
  all_chars p s = true -> all_chars q s = true.
Proof.
  intros Hpq. induction s as [|c s IH]; simpl; [reflexivity|].
  rewrite !andb_true_iff. intros [Hc Hs]. split; [now apply Hpq | now apply IH].
Qed.

(** The first [n] characters of a run of [p] are characters of [p]. *)
Lemma run_length_prefix (p : ascii -> bool) (s : string) (n : nat) :
  (n <= run_length p s)%nat ->
  all_chars p (substring 0 n s) = true /\
  String.length (substring 0 n s) = n.
Proof.
  revert n. induction s as [|c s IH]; intros n Hn; simpl in Hn.
  - assert (n = O) by lia. subst n. now split.
  - destruct n as [|n]; [now split|].
    destruct (p c) eqn:Hc; [|lia].
    destruct (IH n) as [H1 H2]; [lia|].
    simpl. rewrite Hc, H1, H2. now split.
Qed.

Lemma attempts_bounds (q : quantifier) (available n : nat) :
  In n (attempts q available) ->
  (n <= available)%nat /\
  (q = One \/ q = OneOrMore -> 1 <= n)%nat.
Proof.
  destruct q; unfold attempts.
  - destruct available; cbn [Nat.leb In]; [tauto|]. intros [<-|[]].
    split; lia.
  - rewrite <- in_rev, in_seq. intros H. split; lia.
  - rewrite <- in_rev, in_seq. intros H. split; [lia|].
    intros [H'|H']; discriminate.
  - destruct available; cbn [Nat.leb In].
    + intros [<-|[]]. split; [lia|]. intros [H'|H']; discriminate.
    + intros [<-|[<-|[]]]; (split; [lia|]); intros [H'|H']; discriminate.
Qed.

Lemma first_some_some {A B : Type} (f : A -> option B) (l : list A) (b : B) :
  first_some f l = Some b -> exists a, In a l /\ f a = Some b.
Proof.
  induction l as [|a l IH]; simpl; [discriminate|].
  destruct (f a) eqn:Hfa.
  - intros [= <-]. exists a. split; [now left | assumption].
  - intros H. destruct (IH H) as [a' [Hin Hf]]. exists a'.
    split; [now right | assumption].
Qed.

(** The text of the group is made of characters its classes accept. *)
Lemma match_items_group_chars (p : ascii -> bool) (items : list item) :
  Forall (fun it =>
            in_group it = true ->
            forall c, accepts it c = true -> p c = true) items ->
  forall s g, match_items items s = Some g -> all_chars p g = true.
Proof.
  induction 1 as [|it rest Hit _ IH]; intros s g; cbn [match_items].
  - now intros [= <-].
  - intros H. apply first_some_some in H as [n [Hn H]].
    destruct (match_items rest (substring n (String.length s - n) s))
      as [g'|] eqn:Hrest; [|discriminate].
    injection H as <-. apply IH in Hrest.
    destruct (in_group it) eqn:Hg; [|assumption].
    rewrite all_chars_app, Hrest, andb_true_r.
    apply attempts_bounds in Hn as [Hn _].
    apply (all_chars_impl (accepts it)); [now apply Hit|].
    now apply run_length_prefix.
Qed.

(** The text of a group with a class that takes a character is not
    empty. *)
Lemma match_items_group_nonempty (items : list item) :
  Exists (fun it =>
            in_group it = true /\
            (quantity it = One \/ quantity it = OneOrMore)) items ->
  forall s g, match_items items s = Some g -> g <> "".
Proof.
  induction 1 as [it rest [Hg Hq] | it rest _ IH]; intros s g;
    cbn [match_items]; intros H;
    apply first_some_some in H as [n [Hn H]];
    destruct (match_items rest (substring n (String.length s - n) s))
      as [g'|] eqn:Hrest; try discriminate; injection H as <-.
  - rewrite Hg. apply attempts_bounds in Hn as [Hle Hone].
    specialize (Hone Hq).
    destruct (run_length_prefix (accepts it) s n Hle) as [_ Hlen].
    destruct (substring 0 n s); [simpl in Hlen; lia | discriminate].
  - apply IH in Hrest.
    destruct (in_group it); [|assumption].
    destruct (substring 0 n s); [assumption | discriminate].
Qed.

Lemma re_search_some (items : list item) (s g : string) :
  re_search items s = Some g -> exists s', match_items items s' = Some g.
Proof.
  induction s as [|c s IH]; cbn [re_search].
  - destruct (match_items items "") eqn:H; [|discriminate].
    intros [= <-]. now exists "".
  - destruct (match_items items (String c s)) eqn:H.
    + intros [= <-]. now exists (String c s).
    + exact IH.
Qed.

Lemma policy_char_is_no_space (c : ascii) :
  is_policy_char c = true -> is_space c = false.
Proof. destruct c as [[] [] [] [] [] [] [] []]; vm_compute; congruence. Qed.

Lemma strip_without_space (s : string) :
  all_chars (fun c => negb (is_space c)) s = true -> strip s = s.
Proof.
  intros H. unfold strip.
  assert (Hl : lstrip s = s).
  { destruct s as [|c s]; [reflexivity|]. simpl in *.
    apply andb_true_iff in H as [Hc _]. apply negb_true_iff in Hc.
    now rewrite Hc. }
  rewrite Hl. clear Hl. induction s as [|c s IH]; [reflexivity|].
  simpl in *. apply andb_true_iff in H as [Hc Hs].
  apply negb_true_iff in Hc. rewrite (IH Hs), Hc. now destruct s.
Qed.

(** The group of the policy number: one or more letters, digits and
    hyphens, which [strip] leaves as they are. *)
Lemma policy_no_group (s g : string) :
  re_search policy_no_pattern s = Some g ->
  g <> "" /\ all_chars is_policy_char g = true /\ strip g = g.
Proof.
  intros H. apply re_search_some in H as [s' H].
  assert (Hchars : all_chars is_policy_char g = true).
  { revert H. apply match_items_group_chars.
    unfold policy_no_pattern. cbn [literal_ci app].
    repeat constructor; cbn; try discriminate; auto. }
  split; [|split; [assumption|]].
  - revert H. apply match_items_group_nonempty.
    unfold policy_no_pattern. cbn [literal_ci app].
    do 10 apply Exists_cons_tl. apply Exists_cons_hd. cbn. auto.
  - apply strip_without_space. revert Hchars. apply all_chars_impl.
    intros c Hc. now rewrite (policy_char_is_no_space c Hc).
Qed.

Lemma length_truthy (s : string) :
  (50 <= String.length s)%nat -> truthy (PStr s) = true.
Proof. destruct s; simpl; [lia | reflexivity]. Qed.

Lemma split_point_chars (p : ascii -> bool) (s : string) :
  all_chars p s = true ->
  all_chars p (fst (split_point s)) = true /\
  forall f, snd (split_point s) = Some f -> all_chars p f = true.
Proof.
  induction s as [|c s IH]; cbn [split_point all_chars].
  - intros _. split; [reflexivity | discriminate].
  - rewrite andb_true_iff. intros [Hc Hs].
    destruct (Ascii.eqb c ".").
    + split; [reflexivity|]. cbn [snd]. now intros f [= <-].
    + destruct (IH Hs) as [H1 H2]. destruct (split_point s) as [a b].
      cbn [fst snd] in *. split; [|assumption].
      cbn [all_chars]. now rewrite Hc, H1.
Qed.

Lemma remove_commas_chars (p : ascii -> bool) (s : string) :
  all_chars p s = true -> all_chars p (remove_commas s) = true.
Proof.
  induction s as [|c s IH]; cbn [remove_commas all_chars]; [reflexivity|].
  rewrite andb_true_iff. intros [Hc Hs].
  destruct (Ascii.eqb c ","); [now apply IH|].
  cbn [all_chars]. now rewrite Hc, IH.
Qed.

(** A string without a digit is not a number. *)
Lemma py_float_without_digit (s : string) :
  all_chars (fun c => negb (is_digit c)) s = true ->
  py_float s = Raise (ValueError "float" [TStr]).
Proof.
  intros H. unfold py_float.
  destruct (split_point_chars _ s H) as [Hw Hf].
  destruct (split_point s) as [whole frac]. cbn [fst snd] in *.
  assert (Hall : all_chars (fun c => negb (is_digit c))
                   (whole ++ match frac with Some f => f | None => "" end)
                 = true).
  { rewrite all_chars_app, Hw. destruct frac as [f|]; [now apply Hf | reflexivity]. }
  destruct (whole ++ match frac with Some f => f | None => "" end)
    as [|c rest]; [reflexivity|].
  cbn [String.eqb digits_value]. cbn [all_chars] in Hall.
  apply andb_true_iff in Hall as [Hc _]. apply negb_true_iff in Hc.
  now rewrite Hc.
Qed.

Section DocumentProperties.

Variable image_to_string : string -> result string.
Variable SpacyModel_nlp : result (string -> result (list (string * string))).

Local Abbreviation process :=
  (process_document image_to_string SpacyModel_nlp).

(** X19: a document is unreadable, and both results are None, when the
    reading of the image raises, when the text read is blank, and when
    it has fewer than 50 characters, whatever the text holds. *)
Theorem unreadable_document (image_path : string) :
  (exists e, image_to_string image_path = Raise e) \/
  (exists text,
      image_to_string image_path = Ok text /\
      (strip text = "" \/ (String.length text < 50)%nat)) ->
  process image_path = (PNone, PNone).
Proof.
  unfold process_document.
  intros [[e ->] | [text [-> [Hblank | Hshort]]]]; cbn [bind].
  - reflexivity.
  - rewrite Hblank. reflexivity.
  - apply Nat.ltb_lt in Hshort. rewrite Hshort, orb_true_r. reflexivity.
Qed.

(** X20: what the document processor returns.  Either both results are
    None, or the text read has 50 characters or more and is not blank,
    and the entities are the dictionary of the four keys PERSON, DATE,
    POLICY_NO and CLAIM_VALUE, in this order: two lists of strings, a
    policy number that is None or a string of one or more letters,
    digits and hyphens, and a claim value that is None or a float. *)
Theorem process_document_returns (image_path : string) :
  process image_path = (PNone, PNone) \/
  exists text persons dates policy_no claim_value,
    image_to_string image_path = Ok text /\
    process image_path =
      (PDict [("PERSON", PList (map PStr persons));
              ("DATE", PList (map PStr dates));
              ("POLICY_NO", policy_no);
              ("CLAIM_VALUE", claim_value)],
       PStr text) /\
    (50 <= String.length text)%nat /\
    strip text <> "" /\
    (policy_no = PNone \/
     exists g,
       policy_no = PStr g /\ g <> "" /\ all_chars is_policy_char g = true) /\
    (claim_value = PNone \/ exists f, claim_value = PFloat f).
Proof.
  unfold process_document.
  destruct (image_to_string image_path) as [text|e]; cbn [bind];
    [|now left].
  destruct (truthy (PStr (strip text))) eqn:Hblank; cbn [negb orb];
    [|now left].
  destruct (Nat.ltb (String.length text) 50) eqn:Hlen; [now left|].
  destruct SpacyModel_nlp as [nlp|e]; cbn [bind]; [|now left].
  destruct (match re_search claim_amount_pattern text with
            | Some g => (f <- py_float (remove_commas g) ;; Ok (PFloat f))%py
            | None => Ok PNone
            end) as [claim_value|e] eqn:Hvalue; cbn [bind]; [|now left].
  destruct (nlp text) as [ents|e]; cbn [bind]; [|now left].
  right.
  exists text,
    (map snd (filter (fun ent => String.eqb (fst ent) "PERSON") ents)),
    (map snd (filter (fun ent => String.eqb (fst ent) "DATE") ents)).
  eexists; eexists. split; [reflexivity|].
  split; [unfold ent_texts; now rewrite !map_map|].
  split; [apply Nat.ltb_ge in Hlen; exact Hlen|].
  split; [intros H; rewrite H in Hblank; discriminate|].
  split.
  - destruct (re_search policy_no_pattern text) as [g|] eqn:Hg; [|now left].
    right. apply policy_no_group in Hg as [Hne [Hchars ->]]. now exists g.
  - destruct (re_search claim_amount_pattern text) as [g|]; cbn in Hvalue.
    + destruct (py_float (remove_commas g)) as [f|e]; cbn [bind] in Hvalue;
        [|discriminate]. injection Hvalue as <-. right. now exists f.
    + injection Hvalue as <-. now left.
Qed.

(** X21: a claim amount written without a digit (commas, or a point,
    after the words Claim Amount) makes the whole document unreadable:
    the policy number and the other entities are lost with it. *)
Theorem amount_without_digit_loses_the_document (image_path text g : string) :
  image_to_string image_path = Ok text ->
  re_search claim_amount_pattern text = Some g ->
  all_chars (fun c => negb (is_digit c)) g = true ->
  process image_path = (PNone, PNone).
Proof.
  intros Hocr Hg Hdigits. unfold process_document. rewrite Hocr. cbn [bind].
  destruct (negb (truthy (PStr (strip text)))
            || Nat.ltb (String.length text) 50); [reflexivity|].
  destruct SpacyModel_nlp as [nlp|e]; cbn [bind]; [|reflexivity].
  rewrite Hg, (py_float_without_digit (remove_commas g)).
  - reflexivity.
  - now apply remove_commas_chars.
Qed.

End DocumentProperties.

Section RunOnDocuments.

Variable exn_str : exn -> string.
Variable float_repr : float -> string.
Variable repr : pyval -> result string.
Variable POLICY_DB : pyval.
Variable CONFIDENCE_THRESHOLD : pyval.
Variable ROUTING_RULES : pyval.
Variable image_to_string : string -> result string.
Variable SpacyModel_nlp : result (string -> result (list (string * string))).

Local Abbreviation process :=
  (process_document image_to_string SpacyModel_nlp).
Local Abbreviation run_pipeline :=
  (run exn_str float_repr repr POLICY_DB CONFIDENCE_THRESHOLD ROUTING_RULES process).

(** X22: with the document processor, a run has three outcomes and the
    reason "An unexpected error occurred" is none of them: the document
    is unreadable (the processor returned None), or the claim could not
    be classified, or all four stages are invoked and the run succeeds. *)
Theorem run_on_a_document (self : ClaimsPipeline) (image_path : string)
  (log : list stage) :
  process image_path = (PNone, PNone) /\
  run_pipeline self image_path log =
    (Ok (failed
           "Could not process document. The image may be unreadable or blank."),
     (log ++ [Extracting])%list) \/
  process image_path <> (PNone, PNone) /\
  (run_pipeline self image_path log =
     (Ok (failed "Could not classify the claim from the text."),
      (log ++ [Extracting; Classifying])%list) \/
   exists record,
     run_pipeline self image_path log =
       (Ok (PDict record),
        (log ++ [Extracting; Classifying; CheckingCompliance; Routing])%list) /\
     assoc "status" record = Some (PStr "Success")).
Proof.
  pose proof (run_cases exn_str float_repr repr POLICY_DB CONFIDENCE_THRESHOLD
                ROUTING_RULES process self image_path log) as Hrun.
  cbv zeta in Hrun.
  destruct (process_document_returns image_to_string SpacyModel_nlp image_path)
    as [Hnone | [text [persons [dates [policy_no [claim_value H]]]]]].
  - left. split; [assumption|]. rewrite Hnone in Hrun. cbn [fst snd] in Hrun.
    destruct Hrun as [[reason [Hr [-> _]]] | [[reason [_ [He _]]] | [H | H]]];
      [assumption | discriminate He | |].
    + destruct H as [? [? [_ [_ [Hget _]]]]]. discriminate Hget.
    + destruct H as [? [? [? [? [? [Hget _]]]]]]. discriminate Hget.
  - destruct H as [_ [Hdoc [Hlen [_ [Hpn _]]]]]. right.
    split; [rewrite Hdoc; discriminate|].
    rewrite Hdoc in Hrun. cbn [fst snd] in Hrun.
    destruct Hrun as [[reason [_ [_ [He | Ht]]]] | [[reason H] | [H | H]]].
    + discriminate He.
    + rewrite (length_truthy _ Hlen) in Ht. discriminate Ht.
    + destruct H as [Hr [_ [_ [[-> _] | [e [_ [_ Hget]]]]]]];
        [now left | discriminate Hget].
    + destruct H as [shown [e [_ [_ [Hget Hstr]]]]].
      injection Hget as <-.
      destruct Hpn as [-> | [g [-> _]]]; discriminate Hstr.
    + right. destruct H as (? & ? & ? & ? & ? & _ & _ & _ & _ & _ & final & _ & Hr).
      eexists. split; [exact Hr | reflexivity].
Qed.

End RunOnDocuments.

(** ** Training and the construction of the pipeline *)

Section TrainingProperties.

Variable TRAINING_DATA : pyval.
Variable DataFrame : pyval -> result data_frame.
Variable fit : data_frame -> result sk_model.

(** X23: a pipeline is constructed exactly when the training data make a
    frame with the columns description and claim_type and with two rows
    or more, and the fitting on that frame succeeds; its classifier is
    the fitted model.  In every other case the constructor raises the
    RuntimeError of the initialisation. *)
Theorem pipeline_construction :
  (forall self,
      ClaimsPipeline_init TRAINING_DATA DataFrame fit = Constructed self <->
      exists df,
        DataFrame TRAINING_DATA = Ok df /\
        has_column "description" df = true /\
        has_column "claim_type" df = true /\
        (2 <= rows df)%nat /\
        fit df = Ok (classifier self)) /\
  ((forall self,
       ClaimsPipeline_init TRAINING_DATA DataFrame fit <> Constructed self) ->
   ClaimsPipeline_init TRAINING_DATA DataFrame fit =
     RuntimeError "Failed to initialize the claims classification model.").
Proof.
  unfold ClaimsPipeline_init, train_model. split.
  - intros [model]. split.
    + destruct (DataFrame TRAINING_DATA) as [df|e]; cbn [bind];
        [|discriminate].
      destruct (has_column "description" df) eqn:Hd; cbn [negb orb];
        [|discriminate].
      destruct (has_column "claim_type" df) eqn:Hc; cbn [negb orb];
        [|discriminate].
      destruct (Nat.ltb (rows df) 2) eqn:Hrows; [discriminate|].
      destruct (fit df) as [m|e] eqn:Hfit; [|discriminate].
      intros [= ->]. exists df. apply Nat.ltb_ge in Hrows.
      repeat split; assumption.
    + intros [df [Hdf [Hd [Hc [Hrows Hfit]]]]]. rewrite Hdf. cbn [bind].
      rewrite Hd, Hc. cbn [negb orb].
      apply Nat.ltb_ge in Hrows. rewrite Hrows, Hfit. reflexivity.
  - match goal with
    | |- context [match ?body with Ok _ => _ | Raise _ => _ end] =>
        destruct body as [model|e]
    end; [|reflexivity].
    intros H. exfalso. now apply (H {| classifier := model |}).
Qed.

End TrainingProperties.

(** ** The sign of a claim value *)

Lemma shr_1_nonneg (r : shr_record) : 0 <= shr_m r -> 0 <= shr_m (shr_1 r).
Proof.
  destruct r as [m r s]. cbn [shr_m]. intros H.
  destruct m as [|[p|p|]|p]; cbn; lia.
Qed.

Lemma iter_shr_1_nonneg (n : positive) (r : shr_record) :
  0 <= shr_m r -> 0 <= shr_m (iter_pos shr_1 n r).
Proof.
  revert r. induction n as [n IH|n IH|]; intros r H; cbn [iter_pos].
  - apply IH, IH. now apply shr_1_nonneg.
  - now apply IH, IH.
  - now apply shr_1_nonneg.
Qed.

Lemma shr_fexp_nonneg (m e : Z) (l : location) :
  0 <= m -> 0 <= shr_m (fst (shr_fexp prec emax m e l)).
Proof.
  intros H. unfold shr_fexp, shr.
  assert (H0 : 0 <= shr_m (shr_record_of_loc m l)).
  { destruct l as [|[| |]]; exact H. }
  destruct (fexp prec emax (Zdigits2 m + e) - e); cbn [fst];
    [assumption | now apply iter_shr_1_nonneg | assumption].
Qed.

Lemma binary_round_aux_nonneg (m e : Z) (l : location) :
  0 <= m -> sf_nonnegative (binary_round_aux prec emax false m e l).
Proof.
  intros H. unfold binary_round_aux.
  pose proof (shr_fexp_nonneg m e l H) as H1.
  destruct (shr_fexp prec emax m e l) as [mrs' e']. cbn [fst] in H1.
  assert (H2 : 0 <= round_nearest_even (shr_m mrs') (loc_of_shr_record mrs')).
  { unfold round_nearest_even.
    destruct (loc_of_shr_record mrs') as [|[| |]]; try assumption;
      [destruct (Z.even (shr_m mrs'))|]; lia. }
  pose proof (shr_fexp_nonneg _ e' loc_Exact H2) as H3.
  destruct (shr_fexp prec emax
              (round_nearest_even (shr_m mrs') (loc_of_shr_record mrs'))
              e' loc_Exact) as [mrs'' e''].
  cbn [fst] in H3.
  destruct (shr_m mrs'') as [|p|p]; [reflexivity | | lia].
  destruct (e'' <=? emax - prec); reflexivity.
Qed.

Lemma decimal_to_float_nonneg (n : Z) (k : nat) :
  sf_nonnegative (decimal_to_float n k).
Proof.
  unfold decimal_to_float. destruct n as [|m|m]; try reflexivity.
  unfold SFdiv, SFdiv_core_binary.
  set (m2 := Z.pos (Z.to_pos (10 ^ Z.of_nat k))).
  set (e' := Z.min _ _).
  set (m' := match 0 - 0 - e' with
             | 0 => Z.pos m
             | Z.pos _ => Z.shiftl (Z.pos m) (0 - 0 - e')
             | Z.neg _ => 0
             end).
  assert (Hm' : 0 <= m').
  { subst m'. destruct (0 - 0 - e') eqn:E; try lia.
    apply Z.shiftl_nonneg. lia. }
  pose proof (Z.div_pos m' m2 Hm' ltac:(subst m2; lia)) as Hq.
  unfold Z.div in Hq. destruct (Z.div_eucl m' m2) as [q r].
  cbn [xorb]. now apply binary_round_aux_nonneg.
Qed.

(** The number [float] reads in digits with at most a point is zero,
    positive or plus infinity. *)
Lemma py_float_nonneg (s : string) (f : float) :
  py_float s = Ok f ->
  exists x, f = SF2Prim x /\ sf_nonnegative x.
Proof.
  unfold py_float. destruct (split_point s) as [whole frac].
  destruct (String.eqb _ ""); [discriminate|].
  destruct (digits_value 0 _) as [n|]; [|discriminate].
  intros [= <-]. eexists. split; [reflexivity|].
  apply decimal_to_float_nonneg.
Qed.

Section ClaimValue.

Variable image_to_string : string -> result string.
Variable SpacyModel_nlp : result (string -> result (list (string * string))).

(** X24: the claim value of a document is never negative and never a
    NaN: it is None, or the float of a number that is zero, positive or,
    for a very long amount, plus infinity. *)
Theorem claim_value_is_not_negative (image_path : string)
  (entities : list (string * pyval)) (text : pyval) :
  process_document image_to_string SpacyModel_nlp image_path =
    (PDict entities, text) ->
  get entities "CLAIM_VALUE" PNone = PNone \/
  exists x,
    get entities "CLAIM_VALUE" PNone = PFloat (SF2Prim x) /\
    sf_nonnegative x.
Proof.
  unfold process_document.
  destruct (image_to_string image_path) as [t|e]; cbn [bind];
    [|discriminate].
  destruct (negb (truthy (PStr (strip t))) || Nat.ltb (String.length t) 50);
    [discriminate|].
  destruct SpacyModel_nlp as [nlp|e]; cbn [bind]; [|discriminate].
  destruct (re_search claim_amount_pattern t) as [g|].
  - destruct (py_float (remove_commas g)) as [f|e] eqn:Hf; cbn [bind];
      [|discriminate].
    destruct (nlp t); cbn [bind]; [|discriminate].
    intros [= <- _]. right.
    apply py_float_nonneg in Hf as [x [-> Hx]]. now exists x.
  - cbn [bind]. destruct (nlp t); cbn [bind]; [|discriminate].
    intros [= <- _]. now left.
Qed.

End ClaimValue.

Section ModelFailure.

Variable exn_str : exn -> string.
Variable float_repr : float -> string.
Variable repr : pyval -> result string.
Variable POLICY_DB : pyval.
Variable CONFIDENCE_THRESHOLD : pyval.
Variable ROUTING_RULES : pyval.
Variable process_document : string -> pyval * pyval.

(** X25: an error of the model never reaches the caller of a run: when
    the prediction or the probabilities raise, or the predicted label is
    empty, the run reports that the claim could not be classified and
    invokes neither the compliance check nor the router. *)
Theorem model_failure_fails_the_run (self : ClaimsPipeline)
  (image_path text : string) (entities : pyval) (log : list stage) :
  process_document image_path = (entities, PStr text) ->
  truthy entities = true ->
  text <> "" ->
  (exists e, predict (classifier self) text = Raise e) \/
  (exists e, predict_proba_max (classifier self) text = Raise e) \/
  predict (classifier self) text = Ok "" ->
  run exn_str float_repr repr POLICY_DB CONFIDENCE_THRESHOLD ROUTING_RULES
    process_document self image_path log =
    (Ok (failed "Could not classify the claim from the text."),
     (log ++ [Extracting; Classifying])%list).
Proof.
  intros Hdoc He Htext Hmodel.
  unfold run, m_try_except, mbind, invoke, ret, lift. rewrite Hdoc, He.
  rewrite (truthy_nonempty _ Htext). cbn [negb orb].
  unfold classify_claim. rewrite (truthy_nonempty _ Htext). cbn [negb].
  rewrite <- !app_assoc. cbn [app].
  destruct Hmodel as [[e ->] | [[e H] | ->]]; cbn [bind].
  - reflexivity.
  - rewrite H. destruct (predict (classifier self) text); reflexivity.
  - destruct (predict_proba_max (classifier self) text); reflexivity.
Qed.

End ModelFailure.

(** ** Reading a policy number *)

Lemma substring_whole (s : string) : substring 0 (String.length s) s = s.
Proof. induction s as [|c s IH]; simpl; [reflexivity | now rewrite IH]. Qed.

Lemma substring_prefix (a b : string) :
  substring 0 (String.length a) (a ++ b) = a.
Proof.
  induction a as [|c a IH]; simpl; [now destruct b | now rewrite IH].
Qed.

Lemma substring_suffix (a b : string) :
  substring (String.length a) (String.length (a ++ b) - String.length a)
    (a ++ b) = b.
Proof.
  induction a as [|c a IH]; simpl.
  - rewrite Nat.sub_0_r. apply substring_whole.
  - exact IH.
Qed.

Lemma run_length_app (p : ascii -> bool) (a b : string) :
  all_chars p a = true -> stops p b ->
  run_length p (a ++ b) = String.length a.
Proof.
  intros Ha Hb. induction a as [|c a IH]; simpl in *.
  - destruct b as [|c b]; [reflexivity|]. simpl in *. now rewrite Hb.
  - apply andb_true_iff in Ha as [Hc Ha]. now rewrite Hc, IH.
Qed.

(** An item that takes one character. *)
Lemma match_one (it : item) (rest : list item) (c : ascii) (s : string) :
  quantity it = One -> in_group it = false -> accepts it c = true ->
  match_items (it :: rest) (String c s) = match_items rest s.
Proof.
  intros Hq Hg Hc. cbn [match_items run_length]. rewrite Hq, Hc, Hg.
  cbn [attempts Nat.leb first_some String.length Nat.sub substring].
  rewrite Nat.sub_0_r, substring_whole.
  now destruct (match_items rest s).
Qed.

(** A greedy item takes a whole run when the rest of the pattern matches
    after it. *)
Lemma match_run (it : item) (rest : list item) (a b g : string) :
  quantity it = OneOrMore ->
  a <> "" ->
  all_chars (accepts it) a = true ->
  stops (accepts it) b ->
  match_items rest b = Some g ->
  match_items (it :: rest) (a ++ b) =
    Some (if in_group it then a ++ g else g).
Proof.
  intros Hq Hne Ha Hb Hrest. cbn [match_items].
  rewrite Hq, (run_length_app _ a b Ha Hb). unfold attempts.
  destruct (String.length a) as [|n] eqn:Hlen.
  { destruct a; [congruence | discriminate]. }
  rewrite seq_S, rev_app_distr. cbn [rev app first_some Nat.add].
  rewrite <- Hlen, substring_suffix, Hrest, substring_prefix.
  reflexivity.
Qed.

Lemma policy_char_is_no_separator (c : ascii) :
  is_policy_char c = true -> is_separator c = false.
Proof. destruct c as [[] [] [] [] [] [] [] []]; vm_compute; congruence. Qed.

(** The pattern of the policy number on a text that starts with the
    words, separators and a number. *)
Lemma policy_no_at_start (seps number rest : string) :
  seps <> "" ->
  all_chars is_separator seps = true ->
  number <> "" ->
  all_chars is_policy_char number = true ->
  stops is_policy_char rest ->
  re_search policy_no_pattern ("Policy No" ++ seps ++ number ++ rest) =
    Some number.
Proof.
  intros Hsne Hseps Hne Hchars Hstop.
  assert (Hmatch : match_items policy_no_pattern
                     ("Policy No" ++ seps ++ number ++ rest) = Some number).
  { unfold policy_no_pattern. cbn [literal_ci app append].
    do 9 (rewrite match_one; [|reflexivity..]).
    rewrite (match_run _ _ seps (number ++ rest) number);
      [reflexivity | reflexivity | assumption | assumption | |].
    - destruct number as [|c number]; [congruence|]. cbn in Hchars |- *.
      apply andb_true_iff in Hchars as [Hc _].
      now apply policy_char_is_no_separator.
    - rewrite (match_run
                 {| accepts := is_policy_char; quantity := OneOrMore;
                    in_group := true |} [] number rest "");
        try reflexivity; try assumption.
      cbn [in_group]. now rewrite append_empty_r. }
  cbn [append re_search] in *. now rewrite Hmatch.
Qed.

Section PolicyNumber.

Variable image_to_string : string -> result string.
Variable SpacyModel_nlp : result (string -> result (list (string * string))).

(** X26: a policy number written at the start of a readable document is
    read as it is written: after the words Policy No and one or more
    colons or blanks, the letters, digits and hyphens up to the first
    other character are the policy number of the entities. *)
Theorem policy_number_is_read (image_path seps number rest : string)
  (entities : list (string * pyval)) (text : pyval) :
  image_to_string image_path = Ok ("Policy No" ++ seps ++ number ++ rest) ->
  seps <> "" ->
  all_chars is_separator seps = true ->
  number <> "" ->
  all_chars is_policy_char number = true ->
  stops is_policy_char rest ->
  process_document image_to_string SpacyModel_nlp image_path =
    (PDict entities, text) ->
  get entities "POLICY_NO" PNone = PStr number.
Proof.
  intros Hocr Hsne Hseps Hne Hchars Hstop.
  pose proof (policy_no_at_start seps number rest Hsne Hseps Hne Hchars Hstop)
    as Hsearch.
  assert (Hstrip : strip number = number).
  { apply strip_without_space. revert Hchars. apply all_chars_impl.
    intros c Hc. now rewrite (policy_char_is_no_space c Hc). }
  unfold process_document. rewrite Hocr. cbn [bind].
  destruct (negb _ || Nat.ltb _ 50); [discriminate|].
  destruct SpacyModel_nlp as [nlp|e]; cbn [bind]; [|discriminate].
  rewrite Hsearch, Hstrip.
  match goal with
  | |- context [bind ?x _] => destruct x; cbn [bind]; [|discriminate]
  end.
  match goal with
  | |- context [bind ?x _] => destruct x; cbn [bind]; [|discriminate]
  end.
  now intros [= <- _].
Qed.

End PolicyNumber.

(** ** Reading a claim amount *)

(** An optional item that finds nothing to take. *)
Lemma match_skip (it : item) (rest : list item) (s : string) :
  quantity it = ZeroOrOne \/ quantity it = ZeroOrMore ->
  stops (accepts it) s ->
  match_items (it :: rest) s = match_items rest s.
Proof.
  intros Hq Hs. cbn [match_items].
  assert (Hrun : run_length (accepts it) s = O).
  { destruct s as [|c s]; [reflexivity|]. cbn in Hs |- *. now rewrite Hs. }
  rewrite Hrun.
  assert (Hatt : attempts (quantity it) 0 = [O]).
  { destruct Hq as [-> | ->]; reflexivity. }
  rewrite Hatt. cbn [first_some]. rewrite Nat.sub_0_r, substring_whole.
  assert (Hnil : substring 0 0 s = "") by now destruct s.
  rewrite Hnil. destruct (match_items rest s); [|reflexivity].
  now destruct (in_group it).
Qed.

(** The optional dollar sign, when it is written. *)
Lemma match_dollar (rest : list item) (s g : string) :
  match_items rest s = Some g ->
  match_items
    ({| accepts := Ascii.eqb "$"; quantity := ZeroOrOne; in_group := false |}
       :: rest) (String "$" s) = Some g.
Proof.
  intros H. cbn [match_items run_length accepts quantity in_group].
  cbn [Ascii.eqb Bool.eqb attempts Nat.leb first_some String.length Nat.sub
       substring].
  now rewrite Nat.sub_0_r, substring_whole, H.
Qed.

Lemma split_point_digits (s : string) :
  all_chars is_digit s = true -> split_point s = (s, None).
Proof.
  induction s as [|c s IH]; cbn [all_chars split_point]; [reflexivity|].
  rewrite andb_true_iff. intros [Hc Hs]. rewrite (IH Hs).
  destruct (Ascii.eqb c ".") eqn:E; [|reflexivity].
  apply Ascii.eqb_eq in E. subst c. discriminate Hc.
Qed.

Lemma digits_value_digits (s : string) (acc n : Z) :
  digits_value acc s = Some n -> all_chars is_digit s = true.
Proof.
  revert acc. induction s as [|c s IH]; intros acc; cbn; [reflexivity|].
  destruct (is_digit c); [|discriminate]. now apply IH.
Qed.

(** [float] on a string of digits. *)
Lemma py_float_digits (s : string) (n : Z) :
  s <> "" ->
  digits_value 0 s = Some n ->
  py_float s = Ok (SF2Prim (decimal_to_float n 0)).
Proof.
  intros Hne Hn. unfold py_float.
  rewrite (split_point_digits s (digits_value_digits s 0 n Hn)).
  rewrite append_empty_r, Hn.
  destruct s; [congruence | reflexivity].
Qed.

Lemma amount_char_is_no_separator (c : ascii) :
  is_amount_char c = true -> is_separator c = false.
Proof. destruct c as [[] [] [] [] [] [] [] []]; vm_compute; congruence. Qed.

(** The group of the amount after the optional dollar sign. *)
Lemma amount_group (amount rest : string) :
  amount <> "" ->
  all_chars is_amount_char amount = true ->
  stops after_amount rest ->
  match_items
    [{| accepts := is_amount_char; quantity := OneOrMore; in_group := true |};
     {| accepts := Ascii.eqb "."; quantity := ZeroOrOne; in_group := true |};
     {| accepts := is_digit; quantity := ZeroOrMore; in_group := true |}]
    (amount ++ rest) = Some amount.
Proof.
  intros Hne Hchars Hstop.
  assert (H1 : stops is_amount_char rest /\ stops (Ascii.eqb ".") rest /\
               stops is_digit rest).
  { destruct rest as [|c rest]; [now repeat split|].
    unfold stops, after_amount in *.
    apply orb_false_iff in Hstop as [Ha Hp]. rewrite Ascii.eqb_sym in Hp.
    repeat split; try assumption.
    unfold is_amount_char in Ha. now apply orb_false_iff in Ha as [Hd _]. }
  destruct H1 as [Hs1 [Hs2 Hs3]].
  rewrite (match_run _ _ amount rest "");
    [cbn [in_group]; now rewrite append_empty_r
    | reflexivity | assumption | assumption | assumption |].
  rewrite match_skip; [|now left | assumption].
  rewrite match_skip; [reflexivity | now right | assumption].
Qed.

(** The pattern of the claim amount on a text that starts with the
    words, separators, an optional dollar sign and an amount. *)
Lemma claim_amount_at_start (seps dollar amount rest : string) :
  seps <> "" ->
  all_chars is_separator seps = true ->
  dollar = "" \/ dollar = "$" ->
  amount <> "" ->
  all_chars is_amount_char amount = true ->
  stops after_amount rest ->
  re_search claim_amount_pattern
    ("Claim Amount" ++ seps ++ dollar ++ amount ++ rest) = Some amount.
Proof.
  intros Hsne Hseps Hdollar Hne Hchars Hstop.
  pose proof (amount_group amount rest Hne Hchars Hstop) as Hgroup.
  assert (Hfirst : exists c tl, amount = String c tl /\
                                is_amount_char c = true).
  { destruct amount as [|c tl]; [congruence|]. cbn in Hchars.
    apply andb_true_iff in Hchars as [Hc _]. now exists c, tl. }
  destruct Hfirst as [c [tl [Hamount Hc]]].
  assert (Hmatch : match_items claim_amount_pattern
                     ("Claim Amount" ++ seps ++ dollar ++ amount ++ rest)
                   = Some amount).
  { unfold claim_amount_pattern. cbn [literal_ci app append].
    do 12 (rewrite match_one; [|reflexivity..]).
    rewrite (match_run _ _ seps (dollar ++ amount ++ rest) amount);
      [reflexivity | reflexivity | assumption | assumption | |].
    - destruct Hdollar as [-> | ->]; [|reflexivity].
      rewrite Hamount. cbn. now apply amount_char_is_no_separator.
    - destruct Hdollar as [-> | ->]; cbn [append].
      + rewrite match_skip; [exact Hgroup | now left|].
        rewrite Hamount. cbn.
        destruct c as [[] [] [] [] [] [] [] []]; try reflexivity;
          discriminate Hc.
      + now apply match_dollar. }
  cbn [append re_search] in *. now rewrite Hmatch.
Qed.

Section ClaimAmount.

Variable image_to_string : string -> result string.
Variable SpacyModel_nlp : result (string -> result (list (string * string))).

(** X27: a claim amount written at the start of a readable document is
    read with its commas dropped: after the words Claim Amount, one or
    more colons or blanks and an optional dollar sign, the digits and
    commas up to the first other character (a point apart) are the
    claim value, the float nearest to the number the digits write. *)
Theorem claim_amount_is_read (image_path seps dollar amount rest : string)
  (n : Z) (entities : list (string * pyval)) (text : pyval) :
  image_to_string image_path =
    Ok ("Claim Amount" ++ seps ++ dollar ++ amount ++ rest) ->
  seps <> "" ->
  all_chars is_separator seps = true ->
  dollar = "" \/ dollar = "$" ->
  amount <> "" ->
  all_chars is_amount_char amount = true ->
  stops after_amount rest ->
  digits_value 0 (remove_commas amount) = Some n ->
  process_document image_to_string SpacyModel_nlp image_path =
    (PDict entities, text) ->
  get entities "CLAIM_VALUE" PNone = PFloat (SF2Prim (decimal_to_float n 0)).
Proof.
  intros Hocr Hsne Hseps Hdollar Hne Hchars Hstop Hn.
  pose proof (claim_amount_at_start seps dollar amount rest
                Hsne Hseps Hdollar Hne Hchars Hstop) as Hsearch.
  unfold process_document. rewrite Hocr. cbn [bind].
  destruct (negb _ || Nat.ltb _ 50); [discriminate|].
  destruct SpacyModel_nlp as [nlp|e]; cbn [bind]; [|discriminate].
  rewrite Hsearch.
  destruct (string_dec (remove_commas amount) "") as [Hempty|Hdigits].
  - rewrite Hempty. cbn. discriminate.
  - rewrite (py_float_digits _ n Hdigits Hn). cbn [bind].
    match goal with
    | |- context [bind ?x _] => destruct x; cbn [bind]; [|discriminate]
    end.
    now intros [= <- _].
Qed.

End ClaimAmount.

(** ** Instances of the further properties *)

Example sample_document_is_processed :
  sample_process "claim.png" =
    (PDict [("PERSON", PList [PStr "Jane Roe"]);
            ("DATE", PList [PStr "5 May"]);
            ("POLICY_NO", PStr "PN-AUTO-1001");
            ("CLAIM_VALUE", PFloat 12000)],
     PStr "Policy No: PN-AUTO-1001 Claim Amount: $12,000 Major collision damage").
Proof. reflexivity. Qed.

Lemma stp_only_if_witness :
  exists d value high stp,
    PDict (sample_claim 0.9 "Medium" (PFloat 500) true) = PDict d /\
    py_lt (get d "confidence" (PFloat 0)) (PFloat 0.6) = Ok false /\
    truthy (get d "is_compliant" (PBool false)) = true /\
    py_eq (get d "priority" PNone) (PStr "High") = false /\
    assoc "value" d = Some value /\
    truthy value = true /\
    py_getitem sample_rules "high_value_threshold" = Ok high /\
    py_gt value high = Ok false /\
    py_getitem sample_rules "stp_threshold" = Ok stp /\
    py_le value stp = Ok true.
Proof.
  exact (stp_only_if sample_render sample_render sample_repr (PFloat 0.6) sample_rules
           (PDict (sample_claim 0.9 "Medium" (PFloat 500) true)) eq_refl).
Defined.

Lemma non_compliant_is_never_queued_witness :
  decision_of (sample_route (PDict (sample_claim 0.9 "High" (PFloat 500) false)))
    = Some "Flag for Manual Review" \/
  exists shown,
    py_str sample_render sample_repr
      (get (sample_claim 0.9 "High" (PFloat 500) false)
         "compliance_reason" (PStr "Unknown")) = Ok shown /\
    sample_route (PDict (sample_claim 0.9 "High" (PFloat 500) false)) =
      Ok (routing "Auto-Deny" ("Non-compliant: " ++ shown)).
Proof.
  exact (non_compliant_is_never_queued sample_render sample_render sample_repr
           (PFloat 0.6) sample_rules
           (sample_claim 0.9 "High" (PFloat 500) false) eq_refl).
Defined.

Lemma other_entries_do_not_route_witness :
  sample_route
    (PDict (dict_set "type" (PStr "theft")
              (sample_claim 0.9 "Medium" (PFloat 500) true))) =
    sample_route (PDict (sample_claim 0.9 "Medium" (PFloat 500) true)) /\
  sample_route
    (PDict (dict_del "type" (sample_claim 0.9 "Medium" (PFloat 500) true))) =
    sample_route (PDict (sample_claim 0.9 "Medium" (PFloat 500) true)).
Proof.
  apply (other_entries_do_not_route sample_render sample_render sample_repr (PFloat 0.6)
           sample_rules (sample_claim 0.9 "Medium" (PFloat 500) true)
           "type" (PStr "theft")).
  cbn. intros [H|[H|[H|[H|[H|[]]]]]]; discriminate H.
Defined.

Lemma high_priority_needs_no_threshold_witness :
  intelligent_route sample_render sample_render sample_repr (PFloat 0.6) PNone
    (PDict (sample_claim 0.9 "High" (PFloat 500) true)) =
    Ok (routing "Route to Senior Adjuster" "High priority or high value claim").
Proof.
  apply (high_priority_needs_no_threshold sample_render sample_render sample_repr
           (PFloat 0.6) PNone (sample_claim 0.9 "High" (PFloat 500) true));
    reflexivity.
Defined.

Lemma unreadable_threshold_is_flagged_witness :
  intelligent_route sample_render sample_render sample_repr (PFloat 0.6)
    (PDict [("stp_threshold", PInt 1000)])
    (PDict (sample_claim 0.9 "Medium" (PFloat 500) true)) =
    Ok (routing "Flag for Manual Review"
          ("Routing error: " ++
             sample_render (KeyError "high_value_threshold"))).
Proof.
  apply (unreadable_threshold_is_flagged sample_render sample_render sample_repr
           (PFloat 0.6) (PDict [("stp_threshold", PInt 1000)])
           (sample_claim 0.9 "Medium" (PFloat 500) true) (PFloat 500)
           (KeyError "high_value_threshold"));
    reflexivity.
Defined.

Lemma high_value_precedes_stp_witness :
  intelligent_route sample_render sample_render sample_repr (PFloat 0.6)
    (PDict [("high_value_threshold", PInt 1000); ("stp_threshold", PInt 5000)])
    (PDict (sample_claim 0.9 "Medium" (PFloat 3000) true)) =
    Ok (routing "Route to Senior Adjuster" "High priority or high value claim").
Proof.
  apply (high_value_precedes_stp sample_render sample_render sample_repr (PFloat 0.6)
           (PDict [("high_value_threshold", PInt 1000);
                   ("stp_threshold", PInt 5000)])
           (sample_claim 0.9 "Medium" (PFloat 3000) true)
           (PFloat 3000) (PInt 1000));
    reflexivity.
Defined.

Lemma compliant_only_if_witness :
  "Compliant" = "Compliant" /\
  truthy (PStr "collision") = true /\
  truthy (PStr "Major collision damage") = true /\
  exists pn db policy coverage exclusions items,
    PStr "PN-AUTO-1001" = PStr pn /\
    re_match policy_number_pattern pn = true /\
    sample_policy_db = PDict db /\
    assoc pn db = Some policy /\
    py_getitem policy "coverage" = Ok coverage /\
    py_in (PStr "collision") coverage = Ok true /\
    py_getitem policy "exclusions" = Ok exclusions /\
    py_iter exclusions = Ok items /\
    forall text,
      PStr "Major collision damage" = PStr text ->
      Forall (fun item =>
                exists e, item = PStr e /\ str_in e (lower text) = false)
        items.
Proof.
  exact (compliant_only_if sample_render sample_render sample_repr sample_policy_db
           (PStr "PN-AUTO-1001") (PStr "collision")
           (PStr "Major collision damage") "Compliant" eq_refl).
Defined.

Lemma format_error_iff_witness :
  sample_check (PStr "PN-auto-1001") (PStr "collision")
    (PStr "Major collision damage") =
    Ok (false, "Invalid Policy Number format: PN-auto-1001") <->
  ~ exists w rest,
      "PN-auto-1001" = w ++ rest /\ well_formed_policy_number w.
Proof.
  apply (format_error_iff sample_render sample_render sample_repr sample_policy_db
           "PN-auto-1001" (PStr "collision") (PStr "Major collision damage"));
    [discriminate | reflexivity | reflexivity].
Defined.

Lemma missing_policy_is_not_found_witness :
  sample_check (PStr "PN-HOME-2002") (PStr "fire") (PStr "Kitchen fire") =
    Ok (false, "Policy PN-HOME-2002 not found").
Proof.
  apply (missing_policy_is_not_found sample_render sample_render sample_repr
           sample_policy_db
           [("PN-AUTO-1001",
             PDict [("coverage", PList [PStr "collision"]);
                    ("exclusions", PList [PStr "war"; PStr "racing"])])]
           "PN-HOME-2002" (PStr "fire") (PStr "Kitchen fire"));
    reflexivity.
Defined.

Lemma policy_without_coverage_witness :
  check_policy_compliance sample_render sample_render sample_repr
    (PDict [("PN-HOME-7", PDict [("exclusions", PList [])])])
    (PStr "PN-HOME-7") (PStr "fire") (PStr "Kitchen fire") =
    Ok (false,
        "Compliance check failed: " ++ sample_render (KeyError "coverage")).
Proof.
  apply (policy_without_coverage sample_render sample_render sample_repr
           (PDict [("PN-HOME-7", PDict [("exclusions", PList [])])])
           [("PN-HOME-7", PDict [("exclusions", PList [])])]
           [("exclusions", PList [])]
           "PN-HOME-7" (PStr "fire") (PStr "Kitchen fire"));
    try reflexivity.
  discriminate.
Defined.

Lemma claim_text_case_is_ignored_witness :
  sample_check (PStr "PN-AUTO-1001") (PStr "collision")
    (PStr "Collision while RACING") =
  sample_check (PStr "PN-AUTO-1001") (PStr "collision")
    (PStr "collision while racing").
Proof.
  apply (claim_text_case_is_ignored sample_render sample_render sample_repr
           sample_policy_db (PStr "PN-AUTO-1001") (PStr "collision")
           "Collision while RACING" "collision while racing").
  reflexivity.
Defined.

Lemma empty_exclusion_rejects_all_witness :
  exists e,
    In e ["war"; ""] /\
    check_policy_compliance sample_render sample_render sample_repr
      (PDict [("PN-HOME-7",
               PDict [("coverage", PList [PStr "fire"]);
                      ("exclusions", PList [PStr "war"; PStr ""])])])
      (PStr "PN-HOME-7") (PStr "fire") (PStr "Kitchen fire") =
      Ok (false, "Claim rejected due to exclusion clause: '" ++ e ++ "'.").
Proof.
  apply (empty_exclusion_rejects_all sample_render sample_render sample_repr
           (PDict [("PN-HOME-7",
                    PDict [("coverage", PList [PStr "fire"]);
                           ("exclusions", PList [PStr "war"; PStr ""])])])
           [("PN-HOME-7",
             PDict [("coverage", PList [PStr "fire"]);
                    ("exclusions", PList [PStr "war"; PStr ""])])]
           [("coverage", PList [PStr "fire"]);
            ("exclusions", PList [PStr "war"; PStr ""])]
           (PList [PStr "fire"]) (PStr "fire") ["war"; ""]
           "PN-HOME-7" "Kitchen fire");
    try reflexivity.
  - right; left; reflexivity.
  - discriminate.
Defined.

Lemma more_text_keeps_high_priority_witness :
  snd (classify_claim (Some sample_model)
         (PStr ("Report: " ++ "kitchen fire" ++ " on Monday"))) = PStr "High".
Proof.
  apply (more_text_keeps_high_priority (Some sample_model) (Some sample_model)
           "kitchen fire" "Report: " " on Monday"
           (PStr "collision") (PFloat 0.9) (PStr "collision") (PFloat 0.9)
           (PStr "High"));
    [reflexivity | reflexivity | discriminate].
Defined.

Lemma run_never_queues_non_compliant_witness :
  exists decision reason,
    assoc "final_routing"
      [("status", PStr "Success");
       ("extracted_data", sample_entities);
       ("classification",
        PDict [("type", PStr "collision"); ("priority", PStr "High");
               ("confidence", PStr "0.90")]);
       ("compliance",
        PDict [("compliant", PBool false);
               ("details", PStr "Policy PN-AUTO-1001 not found")]);
       ("final_routing",
        routing "Auto-Deny" "Non-compliant: Policy PN-AUTO-1001 not found")] =
      Some (routing decision reason) /\
    (decision = "Flag for Manual Review" \/
     decision = "Auto-Deny" /\
     reason = "Non-compliant: " ++ "Policy PN-AUTO-1001 not found").
Proof.
  apply (run_never_queues_non_compliant sample_render sample_render sample_repr
           (PDict []) (PFloat 0.6) sample_rules sample_document
           sample_pipeline "claim.png" []
           [Extracting; Classifying; CheckingCompliance; Routing]);
    reflexivity.
Defined.

Lemma run_without_policy_number_witness :
  run sample_render sample_render sample_repr sample_policy_db (PFloat 0.6) sample_rules
    (fun _ => (PDict [("POLICY_NO", PNone); ("CLAIM_VALUE", PFloat 500)],
               PStr "Minor damage to the rear bumper"))
    sample_pipeline "claim.png" [] =
    (Ok (success_record
           (PDict [("POLICY_NO", PNone); ("CLAIM_VALUE", PFloat 500)])
           (PStr "collision")
           (PStr (priority_of "Minor damage to the rear bumper"))
           (sf_format_2f (Prim2SF 0.9)) false
           "Invalid Data (Missing Policy No., Claim Type, or Claim Details)"
           (routing "Auto-Deny"
              "Non-compliant: Invalid Data (Missing Policy No., Claim Type, or Claim Details)")),
     [Extracting; Classifying; CheckingCompliance; Routing]).
Proof.
  apply (run_without_policy_number sample_render sample_render sample_repr
           sample_policy_db (PFloat 0.6) sample_rules
           (fun _ => (PDict [("POLICY_NO", PNone); ("CLAIM_VALUE", PFloat 500)],
                      PStr "Minor damage to the rear bumper"))
           sample_pipeline "claim.png" "Minor damage to the rear bumper"
           "collision" [("POLICY_NO", PNone); ("CLAIM_VALUE", PFloat 500)]
           0.9%float []);
    try reflexivity; discriminate.
Defined.

Lemma run_of_high_priority_claim_witness :
  sample_run_on sample_pipeline "claim.png" =
    (Ok (success_record sample_entities_read (PStr "collision") (PStr "High")
           (sf_format_2f (Prim2SF 0.9)) true "Compliant"
           (routing "Route to Senior Adjuster"
              "High priority or high value claim")),
     [Extracting; Classifying; CheckingCompliance; Routing]).
Proof.
  apply (run_of_high_priority_claim sample_render sample_render sample_repr
           sample_policy_db (PFloat 0.6) sample_rules sample_process
           sample_pipeline "claim.png"
           "Policy No: PN-AUTO-1001 Claim Amount: $12,000 Major collision damage"
           "collision" "Compliant"
           [("PERSON", PList [PStr "Jane Roe"]);
            ("DATE", PList [PStr "5 May"]);
            ("POLICY_NO", PStr "PN-AUTO-1001");
            ("CLAIM_VALUE", PFloat 12000)]
           0.9%float []);
    try reflexivity; discriminate.
Defined.

Lemma unreadable_document_witness :
  sample_process "short.png" = (PNone, PNone).
Proof.
  apply (unreadable_document sample_scan sample_nlp "short.png").
  right. exists "Policy No: PN-AUTO-1001".
  split; [reflexivity|]. right. cbn. lia.
Defined.

Lemma amount_without_digit_loses_the_document_witness :
  sample_process "commas.png" = (PNone, PNone).
Proof.
  apply (amount_without_digit_loses_the_document sample_scan sample_nlp
           "commas.png"
           "Claim Amount: ,,, and Policy No: PN-AUTO-1001 for a major collision"
           ",,,");
    reflexivity.
Defined.

Lemma claim_value_is_not_negative_witness :
  get [("PERSON", PList [PStr "Jane Roe"]);
       ("DATE", PList [PStr "5 May"]);
       ("POLICY_NO", PStr "PN-AUTO-1001");
       ("CLAIM_VALUE", PFloat 12000)] "CLAIM_VALUE" PNone = PNone \/
  exists x,
    get [("PERSON", PList [PStr "Jane Roe"]);
         ("DATE", PList [PStr "5 May"]);
         ("POLICY_NO", PStr "PN-AUTO-1001");
         ("CLAIM_VALUE", PFloat 12000)] "CLAIM_VALUE" PNone =
      PFloat (SF2Prim x) /\
    sf_nonnegative x.
Proof.
  apply (claim_value_is_not_negative sample_scan sample_nlp "claim.png" _
           (PStr "Policy No: PN-AUTO-1001 Claim Amount: $12,000 Major collision damage")).
  reflexivity.
Defined.

Lemma model_failure_fails_the_run_witness :
  sample_run_on {| classifier := unfitted_model |} "claim.png" =
    (Ok (failed "Could not classify the claim from the text."),
     [Extracting; Classifying]).
Proof.
  apply (model_failure_fails_the_run sample_render sample_render sample_repr
           sample_policy_db (PFloat 0.6) sample_rules sample_process
           {| classifier := unfitted_model |} "claim.png"
           "Policy No: PN-AUTO-1001 Claim Amount: $12,000 Major collision damage"
           sample_entities_read []);
    [reflexivity | reflexivity | discriminate|].
  left. eexists. reflexivity.
Defined.

Lemma policy_number_is_read_witness :
  get [("PERSON", PList [PStr "Jane Roe"]);
       ("DATE", PList [PStr "5 May"]);
       ("POLICY_NO", PStr "PN-AUTO-1001");
       ("CLAIM_VALUE", PFloat 12000)] "POLICY_NO" PNone = PStr "PN-AUTO-1001".
Proof.
  apply (policy_number_is_read sample_scan sample_nlp "claim.png"
           ": " "PN-AUTO-1001" " Claim Amount: $12,000 Major collision damage"
           _ (PStr "Policy No: PN-AUTO-1001 Claim Amount: $12,000 Major collision damage"));
    try reflexivity; discriminate.
Defined.

Lemma claim_amount_is_read_witness :
  get [("PERSON", PList [PStr "Jane Roe"]);
       ("DATE", PList [PStr "5 May"]);
       ("POLICY_NO", PStr "PN-AUTO-1001");
       ("CLAIM_VALUE", PFloat 12000)] "CLAIM_VALUE" PNone =
    PFloat (SF2Prim (decimal_to_float 12000 0)).
Proof.
  apply (claim_amount_is_read sample_scan sample_nlp "amount.png"
           ": " "$" "12,000" " for Policy No: PN-AUTO-1001 after a collision"
           12000 _
           (PStr "Claim Amount: $12,000 for Policy No: PN-AUTO-1001 after a collision"));
    try reflexivity; try discriminate.
  right; reflexivity.
Defined.
